(** * The ePIC backend of pyasic: field extractors and action operations

    A shallow embedding of [pyasic/miners/backends/epic.py] (class [ePIC]).

    - Payloads are the Python values that JSON parsing produces ([value]).
    - A Python float is a binary64 value, Rocq's primitive [float]: [+] and
      [/] on floats are the operations of the machine, infinities, NaN and
      the two zeros included.  What Python adds is written out: the
      conversion of an int to a float and the division of two ints round
      correctly and raise [OverflowError] out of range, a division by zero
      raises [ZeroDivisionError], and [round] goes through the exact value
      of the float.  An int is a [Z].
    - Exceptions are explicit ([result]); what a [try] catches is a predicate
      on exceptions ([try_except]).
    - Requests through [self.web] are answered by the adapter's transport
      ([web]) and recorded in the order they are issued ([calls]). *)

From Stdlib Require Floats.
Import PrimFloat.
From Stdlib Require Import ZArith QArith Qround String Ascii List Bool Lia Lqa.
Import ListNotations.

Set Warnings "-register-all".
Local Open Scope string_scope.
Local Open Scope list_scope.
Local Open Scope Z_scope.

(** ** Python values *)

Inductive value : Type :=
| VNone
| VBool (b : bool)
| VInt (z : Z)
| VFloat (f : float)
| VStr (s : string)
| VList (l : list value)
| VDict (d : list (string * value)).

(** Exceptions raised by the modelled code and by the transport.
    [LookupError] is the base class of [KeyError] and [IndexError]. *)
Inductive exn : Type :=
| KeyError | IndexError | TypeError | ValueError | AttributeError
| ZeroDivisionError | OverflowError | APIError | OtherError.

Inductive result (A : Type) : Type :=
| Ok (a : A)
| Raise (e : exn).
Arguments Ok {A} a.
Arguments Raise {A} e.

Definition is_KeyError (e : exn) : bool :=
  match e with KeyError => true | _ => false end.

Definition is_LookupError (e : exn) : bool :=
  match e with KeyError | IndexError => true | _ => false end.

Definition is_APIError (e : exn) : bool :=
  match e with APIError => true | _ => false end.

(** [except (LookupError, ValueError, TypeError)] *)
Definition is_parse_error (e : exn) : bool :=
  match e with
  | KeyError | IndexError | ValueError | TypeError => true
  | _ => false
  end.

Definition rbind {A B : Type} (r : result A) (k : A -> result B) : result B :=
  match r with
  | Ok a => k a
  | Raise e => Raise e
  end.

(** ** Python primitives on values *)

Definition is_None (v : value) : bool :=
  match v with VNone => true | _ => false end.

(** A dict keeps its insertion order; its keys are distinct. *)
Fixpoint dict_get (k : string) (d : list (string * value)) : option value :=
  match d with
  | [] => None
  | (k', v) :: r => if String.eqb k k' then Some v else dict_get k r
  end.

Definition dict_keys (d : list (string * value)) : list string := map fst d.

Fixpoint distinct (ks : list string) : bool :=
  match ks with
  | [] => true
  | k :: r => negb (existsb (String.eqb k) r) && distinct r
  end.

(** [bool] is a subclass of [int]: [True] is 1 and [False] is 0. *)
Definition Z_of_bool (b : bool) : Z := if b then 1 else 0.

(** 2 to the power [e], as a rational. *)
Definition Qpow2 (e : Z) : Q :=
  match e with
  | Z0 => 1%Q
  | Zpos p => inject_Z (2 ^ Zpos p)
  | Zneg p => (1 # Pos.pow 2 p)%Q
  end.

(** The exact value of a finite float; an infinity and NaN have none. *)
Definition Q_of_float (f : float) : option Q :=
  match FloatOps.Prim2SF f with
  | SpecFloat.S754_zero _ => Some 0%Q
  | SpecFloat.S754_finite s m e =>
      Some (Qred (inject_Z (if s then Zneg m else Zpos m) * Qpow2 e))
  | _ => None
  end.

(** An int as an unrounded binary number. *)
Definition SF_of_Z (z : Z) : SpecFloat.spec_float :=
  match z with
  | Z0 => SpecFloat.S754_zero false
  | Zpos p => SpecFloat.S754_finite false p 0
  | Zneg p => SpecFloat.S754_finite true p 0
  end.

(** The conversion of an int to a float, where an int meets a float in [+]
    or [/]: the nearest float, ties to even; [OverflowError] ("int too large
    to convert to float") when that is beyond the largest float. *)
Definition float_of_int (z : Z) : result float :=
  match SpecFloat.binary_normalize FloatOps.prec FloatOps.emax z 0 false with
  | SpecFloat.S754_infinity _ => Raise OverflowError
  | sf => Ok (FloatOps.SF2Prim sf)
  end.

(** [a / b] on two ints: the float nearest to the exact quotient;
    [ZeroDivisionError] for a zero divisor, [OverflowError] ("integer
    division result too large for a float") beyond the largest float. *)
Definition int_truediv (a b : Z) : result float :=
  if b =? 0 then Raise ZeroDivisionError
  else if a =? 0 then Ok (if b <? 0 then PrimFloat.neg_zero else PrimFloat.zero)
  else match SpecFloat.SFdiv FloatOps.prec FloatOps.emax (SF_of_Z a) (SF_of_Z b) with
       | SpecFloat.S754_infinity _ => Raise OverflowError
       | sf => Ok (FloatOps.SF2Prim sf)
       end.

(** [a / b] on two floats: [ZeroDivisionError] for a zero divisor, of either
    sign; otherwise the division of the machine, which does not raise. *)
Definition float_truediv (a b : float) : result float :=
  if PrimFloat.eqb b PrimFloat.zero then Raise ZeroDivisionError
  else Ok (PrimFloat.div a b).

(** An int, a bool (an int) or a float, as an operand of arithmetic. *)
Definition number_of (v : value) : option (Z + float) :=
  match v with
  | VBool b => Some (inl (Z_of_bool b))
  | VInt z => Some (inl z)
  | VFloat f => Some (inr f)
  | _ => None
  end.

(** The operand as a float: an int is converted. *)
Definition as_float (n : Z + float) : result float :=
  match n with
  | inl z => float_of_int z
  | inr f => Ok f
  end.

(** The numeric value of an int, a bool or a finite float. *)
Definition num_of (v : value) : option Q :=
  match v with
  | VBool b => Some (inject_Z (Z_of_bool b))
  | VInt z => Some (inject_Z z)
  | VFloat f => Q_of_float f
  | _ => None
  end.

(** [a == b] on numbers: ints exactly, floats as the machine does (NaN
    equals nothing, the two zeros are equal), an int and a float by their
    exact values. *)
Definition number_eqb (a b : Z + float) : bool :=
  match a, b with
  | inl x, inl y => x =? y
  | inr f, inr g => PrimFloat.eqb f g
  | inl x, inr f | inr f, inl x =>
      match Q_of_float f with
      | Some q => Qeq_bool (inject_Z x) q
      | None => false
      end
  end.

(** The value of an object usable as an index ([__index__]). *)
Definition index_of (v : value) : option Z :=
  match v with
  | VBool b => Some (Z_of_bool b)
  | VInt z => Some z
  | _ => None
  end.

(** [l[i]] on a sequence of length [n]: a negative index counts from the end. *)
Definition resolve_index (n : nat) (i : Z) : option nat :=
  if (0 <=? i) && (i <? Z.of_nat n) then Some (Z.to_nat i)
  else if (i <? 0) && (- Z.of_nat n <=? i) then Some (Z.to_nat (Z.of_nat n + i))
  else None.

Fixpoint string_nth (n : nat) (s : string) : option ascii :=
  match s, n with
  | EmptyString, _ => None
  | String c _, O => Some c
  | String _ r, S m => string_nth m r
  end.

(** [c[k]] *)
Definition py_getitem (c k : value) : result value :=
  match c with
  | VDict d =>
      match k with
      | VStr s => match dict_get s d with Some v => Ok v | None => Raise KeyError end
      | VList _ | VDict _ => Raise TypeError (* unhashable *)
      | _ => Raise KeyError
      end
  | VList l =>
      match index_of k with
      | Some i =>
          match resolve_index (length l) i with
          | Some n => match nth_error l n with Some v => Ok v | None => Raise IndexError end
          | None => Raise IndexError
          end
      | None => Raise TypeError
      end
  | VStr s =>
      match index_of k with
      | Some i =>
          match resolve_index (String.length s) i with
          | Some n =>
              match string_nth n s with
              | Some ch => Ok (VStr (String ch EmptyString))
              | None => Raise IndexError
              end
          | None => Raise IndexError
          end
      | None => Raise TypeError
      end
  | _ => Raise TypeError
  end.

(** [c.get(k)]: only a dict has the method. *)
Definition py_get (c : value) (k : string) : result value :=
  match c with
  | VDict d => Ok (match dict_get k d with Some v => v | None => VNone end)
  | _ => Raise AttributeError
  end.

Fixpoint chars (s : string) : list value :=
  match s with
  | EmptyString => []
  | String c r => VStr (String c EmptyString) :: chars r
  end.

(** [for x in c]: the elements of a list, the keys of a dict, the characters
    of a string. *)
Definition py_iter (c : value) : result (list value) :=
  match c with
  | VList l => Ok l
  | VDict d => Ok (map VStr (dict_keys d))
  | VStr s => Ok (chars s)
  | _ => Raise TypeError
  end.

(** [len(c)] *)
Definition py_len (c : value) : result Z :=
  match c with
  | VList l => Ok (Z.of_nat (length l))
  | VDict d => Ok (Z.of_nat (length d))
  | VStr s => Ok (Z.of_nat (String.length s))
  | _ => Raise TypeError
  end.

(** Truth value of an object ([if data:]). *)
Definition py_truthy (v : value) : bool :=
  match v with
  | VNone => false
  | VBool b => b
  | VInt z => negb (z =? 0)
  | VFloat f => negb (PrimFloat.eqb f PrimFloat.zero)
  | VStr s => negb (String.eqb s "")
  | VList l => match l with [] => false | _ => true end
  | VDict d => match d with [] => false | _ => true end
  end.

(** [a == b]: numbers compare by value across int, bool and float; lists
    element by element; dicts as mappings, whatever the order of the keys. *)
Fixpoint py_eq (a b : value) {struct a} : bool :=
  match a, b with
  | VNone, VNone => true
  | VStr s, VStr t => String.eqb s t
  | VList l1, VList l2 =>
      (fix go (xs ys : list value) {struct xs} : bool :=
         match xs, ys with
         | [], [] => true
         | x :: xs', y :: ys' => py_eq x y && go xs' ys'
         | _, _ => false
         end) l1 l2
  | VDict d1, VDict d2 =>
      Nat.eqb (length d1) (length d2) &&
      (fix go (d : list (string * value)) {struct d} : bool :=
         match d with
         | [] => true
         | (k, v) :: r =>
             match dict_get k d2 with
             | Some v' => py_eq v v'
             | None => false
             end && go r
         end) d1
  | _, _ =>
      match number_of a, number_of b with
      | Some x, Some y => number_eqb x y
      | _, _ => false
      end
  end.

(** [a / b]: true division, the result is a float.  Two ints are divided
    exactly and the quotient rounded; otherwise both operands are taken as
    floats, the left one first, before the divisor is tested. *)
Definition py_truediv (a b : value) : result float :=
  match number_of a, number_of b with
  | Some (inl x), Some (inl y) => int_truediv x y
  | Some x, Some y =>
      rbind (as_float x) (fun f =>
      rbind (as_float y) (fun g =>
      float_truediv f g))
  | _, _ => Raise TypeError
  end.

(** [a + b] *)
Definition py_add (a b : value) : result value :=
  match a, b with
  | VStr s, VStr t => Ok (VStr (s ++ t)%string)
  | VList l1, VList l2 => Ok (VList (l1 ++ l2))
  | _, _ =>
      match number_of a, number_of b with
      | Some (inl x), Some (inl y) => Ok (VInt (x + y))
      | Some x, Some y =>
          rbind (as_float x) (fun f =>
          rbind (as_float y) (fun g =>
          Ok (VFloat (PrimFloat.add f g))))
      | _, _ => Raise TypeError
      end
  end.

(** Rounding to the nearest integer, ties to the even one. *)
Definition round_half_even (q : Q) : Z :=
  let f := Qfloor q in
  match Qcompare (q - inject_Z f) (1 # 2) with
  | Lt => f
  | Gt => f + 1
  | Eq => if Z.even f then f else f + 1
  end.

(** [round(x)]: an int; of a float, its exact value rounded, [ValueError]
    for NaN and [OverflowError] for an infinity. *)
Definition py_round (x : value) : result value :=
  match x with
  | VBool b => Ok (VInt (Z_of_bool b))
  | VInt z => Ok (VInt z)
  | VFloat f =>
      match Q_of_float f with
      | Some q => Ok (VInt (round_half_even q))
      | None => if PrimFloat.is_nan f then Raise ValueError else Raise OverflowError
      end
  | _ => Raise TypeError
  end.

(** [round(x, 2)] on a float: a float.  The exact value of [x] is rounded
    to hundredths, ties to even, and the float nearest to that decimal is
    returned; a zero keeps the sign of [x]; an infinity and NaN are returned
    as they are. *)
Definition round2 (x : float) : float :=
  match Q_of_float x with
  | None => x
  | Some q =>
      let n := round_half_even (q * 100) in
      if n =? 0 then (if PrimFloat.get_sign x then PrimFloat.neg_zero else PrimFloat.zero)
      else FloatOps.SF2Prim
             (SpecFloat.SFdiv FloatOps.prec FloatOps.emax (SF_of_Z n) (SF_of_Z 100))
  end.

(** [float(x)] on a float. *)
Definition float_ (x : float) : float := x.

(** [s.split(sep)] for a one-character separator: every occurrence splits,
    so consecutive separators give empty strings. *)
Fixpoint split_on (sep : ascii) (s : string) : list string :=
  match s with
  | EmptyString => [EmptyString]
  | String c r =>
      if Ascii.eqb c sep then EmptyString :: split_on sep r
      else match split_on sep r with
           | [] => [String c EmptyString]
           | w :: ws => String c w :: ws
           end
  end.

(** [s.replace(c, "")] for a one-character [c]: every occurrence goes. *)
Fixpoint remove_char (c : ascii) (s : string) : string :=
  match s with
  | EmptyString => EmptyString
  | String a r => if Ascii.eqb a c then remove_char c r else String a (remove_char c r)
  end.

(** [v.split(" ")]: only a str has the method. *)
Definition py_split_space (v : value) : result value :=
  match v with
  | VStr s => Ok (VList (map VStr (split_on " "%char s)))
  | _ => Raise AttributeError
  end.

(** [v.replace("v", "")]: only a str has the method. *)
Definition py_replace_v (v : value) : result value :=
  match v with
  | VStr s => Ok (VStr (remove_char "v"%char s))
  | _ => Raise AttributeError
  end.

(** ** Loops and [try] in the exception monad *)

(** A [for] loop that threads an accumulator; the first exception ends it. *)
Fixpoint for_each {A B : Type} (body : A -> B -> result A) (l : list B) (acc : A)
  : result A :=
  match l with
  | [] => Ok acc
  | x :: r => rbind (body acc x) (for_each body r)
  end.

(** [try: body  except <caught>: handler] *)
Definition rtry {A : Type} (body : result A) (caught : exn -> bool)
  (handler : result A) : result A :=
  match body with
  | Ok a => Ok a
  | Raise e => if caught e then handler else Raise e
  end.

(** [range(n)] *)
Definition range (n : Z) : list Z := map Z.of_nat (seq 0 (Z.to_nat n)).

Fixpoint list_update {A : Type} (n : nat) (f : A -> A) (l : list A) : list A :=
  match l, n with
  | [], _ => []
  | x :: r, O => f x :: r
  | x :: r, S m => x :: list_update m f r
  end.

(** ** The HashBoard record *)

(** Modelled from the spec: the dataclass [pyasic.data.HashBoard] is declared
    in another module of the package.  The spec gives it a slot index, a chip
    count, a measured hashrate, a temperature and a missing flag, "flagged as
    missing by default"; the backend also writes [expected_chips].  Fields
    that the constructor call of the backend does not set start at [None],
    [missing] at [True]. *)
Module HashBoard.
Record t : Type := mk {
  slot : Z;
  hashrate : option float;
  temp : value;
  chips : option Z;
  expected_chips : Z;
  missing : bool
}.

(** [HashBoard(slot=i, expected_chips=n)] *)
Definition new (i n : Z) : t :=
  {| slot := i; hashrate := None; temp := VNone; chips := None;
     expected_chips := n; missing := true |}.

Definition set_expected_chips (n : Z) (b : t) : t :=
  {| slot := slot b; hashrate := hashrate b; temp := temp b; chips := chips b;
     expected_chips := n; missing := missing b |}.
Definition set_missing (m : bool) (b : t) : t :=
  {| slot := slot b; hashrate := hashrate b; temp := temp b; chips := chips b;
     expected_chips := expected_chips b; missing := m |}.
Definition set_hashrate (h : float) (b : t) : t :=
  {| slot := slot b; hashrate := Some h; temp := temp b; chips := chips b;
     expected_chips := expected_chips b; missing := missing b |}.
Definition set_chips (n : Z) (b : t) : t :=
  {| slot := slot b; hashrate := hashrate b; temp := temp b; chips := Some n;
     expected_chips := expected_chips b; missing := missing b |}.
Definition set_temp (v : value) (b : t) : t :=
  {| slot := slot b; hashrate := hashrate b; temp := v; chips := chips b;
     expected_chips := expected_chips b; missing := missing b |}.
End HashBoard.

(** [hb_list[k].attr = ...]: the list is indexed, then the board is updated. *)
Definition set_board (hb_list : list HashBoard.t) (k : value)
  (f : HashBoard.t -> HashBoard.t) : result (list HashBoard.t) :=
  match index_of k with
  | Some i =>
      match resolve_index (length hb_list) i with
      | Some n => Ok (list_update n f hb_list)
      | None => Raise IndexError
      end
  | None => Raise TypeError
  end.

(** ** The transport and the collaborators *)

(** The commands of [pyasic.web.epic.ePICWebAPI] that the backend issues. *)
Module ePICWebAPI.
Inductive command : Type :=
| summary | network | hashrate
| restart_epic | stop_mining | resume_mining | reboot.

(** What the device answers to a command: a payload, or an exception. *)
Definition t : Type := command -> result value.
End ePICWebAPI.

(** Modelled from the spec: [pyasic.config.MinerConfig], [pyasic.data.Fan] and
    [pyasic.data.error_codes.X19Error] are declared in other modules of the
    package.  The spec gives the configuration model "a family-specific constructor
    (fromNativePayload(payload) -> Configuration) and a default/empty
    constructor", and describes a Fan as a "rotational speed, possibly
    unknown".  They are taken as parameters: [MinerConfig_from_epic] is
    [MinerConfig.from_epic(payload)] and [Fan_new] is [Fan(speed)], which
    may both raise on a payload they cannot read, [MinerConfig_new] is
    [MinerConfig()], [Fan_unknown] is [Fan()], and [X19Error_str e] is
    [X19Error(str(e))]. *)
Class Collaborators : Type := {
  MinerConfig : Type;
  MinerConfig_new : MinerConfig;
  MinerConfig_from_epic : value -> result MinerConfig;
  Fan : Type;
  Fan_new : value -> result Fan;
  Fan_unknown : Fan;
  MinerErrorData : Type;
  X19Error_str : value -> MinerErrorData
}.

(** ** The adapter *)

Section Backend.
Context {collaborators : Collaborators}.

(** The fields of [self] that no method writes: the transport and the
    static capability data of the model. *)
Record ePIC : Type := {
  web : ePICWebAPI.t;
  expected_hashboards : Z;
  expected_chips : Z
}.

(** What a method can change: the requests issued through [self.web], oldest
    first, and [self.config]. *)
Record state : Type := {
  calls : list ePICWebAPI.command;
  config : option MinerConfig
}.

(** A method: it runs from a state, returns or raises, and leaves a state. *)
Definition M (A : Type) : Type := state -> result A * state.

Definition ret {A : Type} (a : A) : M A := fun st => (Ok a, st).

Definition bind {A B : Type} (m : M A) (k : A -> M B) : M B :=
  fun st =>
    match m st with
    | (Ok a, st') => k a st'
    | (Raise e, st') => (Raise e, st')
    end.

Definition lift {A : Type} (r : result A) : M A := fun st => (r, st).

(** [try: body  except <caught>: handler] *)
Definition try_except {A : Type} (body : M A) (caught : exn -> bool)
  (handler : M A) : M A :=
  fun st =>
    match body st with
    | (Ok a, st') => (Ok a, st')
    | (Raise e, st') => if caught e then handler st' else (Raise e, st')
    end.

(** [await self.web.<c>()] *)
Definition call (self : ePIC) (c : ePICWebAPI.command) : M value :=
  fun st => (web self c, {| calls := calls st ++ [c]; config := config st |}).

(** [self.config = cfg] *)
Definition set_config (cfg : MinerConfig) : M unit :=
  fun st => (Ok tt, {| calls := calls st; config := Some cfg |}).

Notation "x <- m ;; k" := (bind m (fun x => k))
  (at level 100, m at next level, right associativity).
Notation "m ;;; k" := (bind m (fun _ => k))
  (at level 100, right associativity).

(** The opening of most extractors:
<<
    if payload is None:
        try:
            payload = await self.web.<c>()
        except APIError:
            pass
>> *)
Definition fetch_if_None (self : ePIC) (c : ePICWebAPI.command)
  (payload : value) : M value :=
  if is_None payload
  then try_except (call self c) is_APIError (ret payload)
  else ret payload.

(** [logger.warning(e)] in the [APIError] handler only writes to the log; it
    is left out.  The [try] statement ends before the payload is translated:
    what [MinerConfig.from_epic] raises is not handled here. *)
Definition get_config (self : ePIC) : M MinerConfig :=
  summary <- try_except (call self ePICWebAPI.summary)
               (fun e => is_APIError e || is_LookupError e) (ret VNone) ;;
  cfg <- (if negb (is_None summary)
          then lift (MinerConfig_from_epic summary)
          else ret MinerConfig_new) ;;
  set_config cfg ;;;
  ret cfg.

(** The common tail of the four actions:
<<
    if data:
        try:
            return data["success"]
        except KeyError:
            pass
    return False
>> *)
Definition success_of (data : value) : M value :=
  if py_truthy data
  then try_except (lift (py_getitem data (VStr "success"))) is_KeyError
         (ret (VBool false))
  else ret (VBool false).

Definition restart_backend (self : ePIC) : M value :=
  data <- call self ePICWebAPI.restart_epic ;; success_of data.

Definition stop_mining (self : ePIC) : M value :=
  data <- call self ePICWebAPI.stop_mining ;; success_of data.

Definition resume_mining (self : ePIC) : M value :=
  data <- call self ePICWebAPI.resume_mining ;; success_of data.

Definition reboot (self : ePIC) : M value :=
  data <- call self ePICWebAPI.reboot ;; success_of data.

Definition _get_mac (self : ePIC) (web_network : value) : M value :=
  web_network <- fetch_if_None self ePICWebAPI.network web_network ;;
  if negb (is_None web_network) then
    try_except
      (lift (rbind (py_iter web_network) (fun networks =>
         match networks with
         | [] => Ok VNone
         | network :: _ =>
             rbind (py_getitem web_network network) (fun entry =>
             py_getitem entry (VStr "mac_address"))
         end)))
      is_KeyError (ret VNone)
  else ret VNone.

Definition _get_hostname (self : ePIC) (web_summary : value) : M value :=
  web_summary <- fetch_if_None self ePICWebAPI.summary web_summary ;;
  if negb (is_None web_summary) then
    try_except (lift (py_getitem web_summary (VStr "Hostname")))
      is_KeyError (ret VNone)
  else ret VNone.

Definition _get_wattage (self : ePIC) (web_summary : value) : M value :=
  web_summary <- fetch_if_None self ePICWebAPI.summary web_summary ;;
  if negb (is_None web_summary) then
    try_except
      (lift (rbind (py_getitem web_summary (VStr "Power Supply Stats")) (fun stats =>
             rbind (py_getitem stats (VStr "Input Power")) (fun wattage =>
             py_round wattage))))
      is_KeyError (ret VNone)
  else ret VNone.

(** [hashrate += hb["Hashrate"][0]] *)
Definition add_measured (hashrate hb : value) : result value :=
  rbind (py_getitem hb (VStr "Hashrate")) (fun pair =>
  rbind (py_getitem pair (VInt 0)) (fun measured =>
  py_add hashrate measured)).

(** [round(float(float(hashrate / 1000000)), 2)] *)
Definition to_mega (hashrate : value) : result value :=
  rbind (py_truediv hashrate (VInt 1000000)) (fun q =>
  Ok (VFloat (round2 (float_ (float_ q))))).

Definition _get_hashrate (self : ePIC) (web_summary : value) : M value :=
  web_summary <- fetch_if_None self ePICWebAPI.summary web_summary ;;
  if negb (is_None web_summary) then
    try_except
      (lift (let hashrate := VInt 0 in
             rbind (py_getitem web_summary (VStr "HBs")) (fun hbs =>
             if negb (is_None hbs) then
               rbind (py_iter hbs) (fun boards =>
               rbind (for_each add_measured boards hashrate) to_mega)
             else Ok VNone)))
      is_parse_error (ret VNone)
  else ret VNone.

(** The body of the loop of [_get_expected_hashrate]:
<<
    if hb["Hashrate"][1] == 0:
        ideal = 1.0
    else:
        ideal = hb["Hashrate"][1] / 100
    hashrate += hb["Hashrate"][0] / ideal
>> *)
Definition add_expected (hashrate hb : value) : result value :=
  rbind (py_getitem hb (VStr "Hashrate")) (fun pair =>
  rbind (py_getitem pair (VInt 1)) (fun percent =>
  rbind (if py_eq percent (VInt 0) then Ok PrimFloat.one
         else py_truediv percent (VInt 100)) (fun ideal =>
  rbind (py_getitem pair (VInt 0)) (fun measured =>
  rbind (py_truediv measured (VFloat ideal)) (fun term =>
  py_add hashrate (VFloat term)))))).

Definition _get_expected_hashrate (self : ePIC) (web_summary : value) : M value :=
  web_summary <- fetch_if_None self ePICWebAPI.summary web_summary ;;
  if negb (is_None web_summary) then
    try_except
      (lift (let hashrate := VInt 0 in
             rbind (py_get web_summary "HBs") (fun hbs =>
             if negb (is_None hbs) then
               rbind (py_getitem web_summary (VStr "HBs")) (fun hbs =>
               rbind (py_iter hbs) (fun boards =>
               rbind (for_each add_expected boards hashrate) to_mega))
             else Ok VNone)))
      is_parse_error (ret VNone)
  else ret VNone.

Definition _get_fw_ver (self : ePIC) (web_summary : value) : M value :=
  web_summary <- fetch_if_None self ePICWebAPI.summary web_summary ;;
  if negb (is_None web_summary) then
    try_except
      (lift (rbind (py_getitem web_summary (VStr "Software")) (fun fw_ver =>
             rbind (py_split_space fw_ver) (fun tokens =>
             rbind (py_getitem tokens (VInt 1)) (fun token =>
             py_replace_v token)))))
      is_KeyError (ret VNone)
  else ret VNone.

(** The body of the loop of [_get_fans]:
<<
    try:
        fans.append(Fan(web_summary["Fans Rpm"][fan]))
    except (LookupError, ValueError, TypeError):
        fans.append(Fan())
>> *)
Definition add_fan (web_summary : value) (fans : list Fan) (fan : value)
  : result (list Fan) :=
  rtry
    (rbind (py_getitem web_summary (VStr "Fans Rpm")) (fun rpm =>
     rbind (py_getitem rpm fan) (fun speed =>
     rbind (Fan_new speed) (fun f =>
     Ok (fans ++ [f])))))
    is_parse_error
    (Ok (fans ++ [Fan_unknown])).

Definition _get_fans (self : ePIC) (web_summary : value) : M (list Fan) :=
  web_summary <- fetch_if_None self ePICWebAPI.summary web_summary ;;
  let fans := [] in
  if negb (is_None web_summary) then
    lift (rbind (py_getitem web_summary (VStr "Fans Rpm")) (fun rpm =>
          rbind (py_iter rpm) (fun entries =>
          for_each (add_fan web_summary) entries fans)))
  else ret fans.

(** The body of the inner loop of [_get_hashboards]:
<<
    if hr["Index"] == hb["Index"]:
        num_of_chips = len(hr["Data"])
        hashrate = hb["Hashrate"][0]
        hb_list[hr["Index"]].expected_chips = num_of_chips
        hb_list[hr["Index"]].missing = False
        hb_list[hr["Index"]].hashrate = round(hashrate / 1000000, 2)
        hb_list[hr["Index"]].chips = num_of_chips
        hb_list[hr["Index"]].temp = hb["Temperature"]
>>
    The right-hand side of an assignment is evaluated before its target. *)
Definition match_board (hb : value) (hb_list : list HashBoard.t) (hr : value)
  : result (list HashBoard.t) :=
  rbind (py_getitem hr (VStr "Index")) (fun hr_index =>
  rbind (py_getitem hb (VStr "Index")) (fun hb_index =>
  if py_eq hr_index hb_index then
    rbind (py_getitem hr (VStr "Data")) (fun data =>
    rbind (py_len data) (fun num_of_chips =>
    rbind (py_getitem hb (VStr "Hashrate")) (fun pair =>
    rbind (py_getitem pair (VInt 0)) (fun hashrate =>
    rbind (set_board hb_list hr_index (HashBoard.set_expected_chips num_of_chips))
      (fun hb_list =>
    rbind (set_board hb_list hr_index (HashBoard.set_missing false))
      (fun hb_list =>
    rbind (py_truediv hashrate (VInt 1000000)) (fun mega =>
    rbind (set_board hb_list hr_index (HashBoard.set_hashrate (round2 mega)))
      (fun hb_list =>
    rbind (set_board hb_list hr_index (HashBoard.set_chips num_of_chips))
      (fun hb_list =>
    rbind (py_getitem hb (VStr "Temperature")) (fun temperature =>
    set_board hb_list hr_index (HashBoard.set_temp temperature)))))))))))
  else Ok hb_list)).

(** [for hr in web_hashrate: ...] for one board [hb] of the summary. *)
Definition match_boards (web_hashrate : value) (hb_list : list HashBoard.t)
  (hb : value) : result (list HashBoard.t) :=
  rbind (py_iter web_hashrate) (fun hrs =>
  for_each (match_board hb) hrs hb_list).

(** The second payload is fetched when it IS supplied
    ([if web_hashrate is not None:]), and nothing guards the parsing. *)
Definition _get_hashboards (self : ePIC) (web_summary web_hashrate : value)
  : M (list HashBoard.t) :=
  web_summary <- fetch_if_None self ePICWebAPI.summary web_summary ;;
  web_hashrate <- (if negb (is_None web_hashrate)
                   then try_except (call self ePICWebAPI.hashrate) is_APIError
                          (ret web_hashrate)
                   else ret web_hashrate) ;;
  let hb_list := map (fun i => HashBoard.new i (expected_chips self))
                   (range (expected_hashboards self)) in
  hbs <- lift (py_get web_summary "HBs") ;;
  if negb (is_None hbs) then
    lift (rbind (py_getitem web_summary (VStr "HBs")) (fun hbs =>
          rbind (py_iter hbs) (fun boards =>
          for_each (match_boards web_hashrate) boards hb_list)))
  else ret hb_list.

Definition _is_mining (self : ePIC) : M value := ret VNone.

Definition _get_uptime (self : ePIC) (web_summary : value) : M value :=
  web_summary <- fetch_if_None self ePICWebAPI.summary web_summary ;;
  if negb (is_None web_summary) then
    try_except
      (lift (rbind (py_getitem web_summary (VStr "Session")) (fun session =>
             py_getitem session (VStr "Uptime"))))
      is_KeyError (ret VNone)
  else ret VNone.

Definition _get_fault_light (self : ePIC) (web_summary : value) : M value :=
  web_summary <- fetch_if_None self ePICWebAPI.summary web_summary ;;
  if negb (is_None web_summary) then
    try_except
      (lift (rbind (py_getitem web_summary (VStr "Misc")) (fun misc =>
             py_getitem misc (VStr "Locate Miner State"))))
      is_KeyError (ret (VBool false))
  else ret (VBool false).

(** Here the fetch is guarded by [if not web_summary:]. *)
Definition _get_errors (self : ePIC) (web_summary : value)
  : M (list MinerErrorData) :=
  web_summary <- (if negb (py_truthy web_summary)
                  then try_except (call self ePICWebAPI.summary) is_APIError
                         (ret web_summary)
                  else ret web_summary) ;;
  let errors := [] in
  if negb (is_None web_summary) then
    try_except
      (lift (rbind (py_getitem web_summary (VStr "Status")) (fun status =>
             rbind (py_getitem status (VStr "Last Error")) (fun error =>
             if negb (is_None error)
             then Ok (errors ++ [X19Error_str error])
             else Ok errors))))
      is_KeyError (ret errors)
  else ret errors.

Definition fault_light_off (self : ePIC) : M bool := ret false.

Definition fault_light_on (self : ePIC) : M bool := ret false.

Definition _get_api_ver (self : ePIC) : M value := ret VNone.

Definition _get_env_temp (self : ePIC) : M value := ret VNone.

Definition _get_fan_psu (self : ePIC) : M value := ret VNone.

Definition _get_wattage_limit (self : ePIC) : M value := ret VNone.

Definition send_config (self : ePIC) (config : MinerConfig)
  (user_suffix : value) : M unit := ret tt.

Definition set_power_limit (self : ePIC) (wattage : value) : M bool := ret false.

End Backend.

(** ** Vocabulary of the properties *)

(** The payload an extractor works from, given the one it was called with:
    the supplied one; or, when none was supplied, the one the device answers,
    [None] when that request fails with [APIError]. *)
Inductive works_from (self : ePIC) (c : ePICWebAPI.command)
  : value -> value -> Prop :=
| supplied (p : value) :
    is_None p = false -> works_from self c p p
| fetched (p : value) :
    web self c = Ok p -> works_from self c VNone p
| unavailable :
    web self c = Raise APIError -> works_from self c VNone VNone.

(** A token with only a leading ["v"] removed. *)
Definition strip_leading_v (token : string) : string :=
  match token with
  | String c r => if Ascii.eqb c "v"%char then r else token
  | EmptyString => token
  end.

(** The path [payload[k1][k2]] ends at a key that a dict on it lacks. *)
Definition key_missing (payload : value) (k1 k2 : string) : Prop :=
  exists d,
    payload = VDict d /\
    (dict_get k1 d = None \/
     exists d1, dict_get k1 d = Some (VDict d1) /\ dict_get k2 d1 = None).

(** The fan an entry of the fan mapping gives. *)
Definition fan_of {collaborators : Collaborators} (entry : string * value) : Fan :=
  match Fan_new (snd entry) with
  | Ok f => f
  | Raise _ => Fan_unknown
  end.

(** ** A concrete setting for examples *)

(** Collaborators to run the model with: a configuration is the pool list
    of the payload it was translated from, read with [payload["pools"]] (the
    empty list by default), a fan is its speed and [Fan(speed)] insists on
    an int, an error is the value it wraps. *)
#[export] Instance sample_collaborators : Collaborators := {|
  MinerConfig := value;
  MinerConfig_new := VList [];
  MinerConfig_from_epic := fun payload => py_getitem payload (VStr "pools");
  Fan := option Z;
  Fan_new := fun speed =>
    match speed with VInt z => Ok (Some z) | _ => Raise TypeError end;
  Fan_unknown := None;
  MinerErrorData := value;
  X19Error_str := fun e => e
|}.

(** A three-board device that answers every command with [answer]. *)
Definition device (answer : result value) : ePIC :=
  {| web := fun _ => answer; expected_hashboards := 3; expected_chips := 100 |}.

Definition fresh : state := {| calls := []; config := None |}.

(** A summary that reports only board 1, and the matching per-chip data. *)
Definition summary_board1 : value :=
  VDict [("Software", VStr "PowerPlay v1.0-dev");
         ("HBs", VList [VDict [("Index", VInt 1);
                               ("Hashrate", VList [VInt 95123456; VInt 0]);
                               ("Temperature", VFloat 61.5)]]);
         ("Fans Rpm", VDict [("Fans Speed 1", VInt 3000);
                             ("Fans Speed 2", VStr "n/a")])].

Definition hashrate_board1 : value :=
  VList [VDict [("Index", VInt 1); ("Data", VList [VInt 7; VInt 8; VInt 9])]].

(** ** Vocabulary of the further properties *)

(** A board of the summary with [Hashrate] pair [[measured, percent]]: the
    measured value is a number, taken as a float, and the ideal percentage
    is a float, or the int 0. *)
Definition board_pair (hb : value) (mp : float * float) : Prop :=
  exists d vm vp n,
    hb = VDict d /\
    dict_get "Hashrate" d = Some (VList [vm; vp]) /\
    number_of vm = Some n /\
    as_float n = Ok (fst mp) /\
    (vp = VFloat (snd mp) \/ (vp = VInt 0 /\ snd mp = PrimFloat.zero)).

(** The expected hashrate in the words of the specification: each measured
    value over its efficiency ratio (ideal percentage / 100, or 1.0 when the
    percentage is 0), summed. *)
Definition efficiency_ratio (percent : float) : float :=
  if PrimFloat.eqb percent PrimFloat.zero then PrimFloat.one
  else PrimFloat.div percent 100.

Definition expected_total (pairs : list (float * float)) : float :=
  fold_left
    (fun acc mp =>
       PrimFloat.add acc (PrimFloat.div (fst mp) (efficiency_ratio (snd mp))))
    pairs PrimFloat.zero.

(** A board of the summary whose [Hashrate] list starts with the int [z]. *)
Definition board_measures (hb : value) (z : Z) : Prop :=
  exists d rest,
    hb = VDict d /\ dict_get "Hashrate" d = Some (VList (VInt z :: rest)).

(** The slots [_get_hashboards] allocates before it reads a payload. *)
Definition allocated (self : ePIC) : list HashBoard.t :=
  map (fun i => HashBoard.new i (expected_chips self))
    (range (expected_hashboards self)).

(** The five writes of a match of [_get_hashboards], on one board. *)
Definition populate (num_of_chips : Z) (mega : float) (temperature : value)
  (b : HashBoard.t) : HashBoard.t :=
  HashBoard.set_temp temperature
    (HashBoard.set_chips num_of_chips
       (HashBoard.set_hashrate mega
          (HashBoard.set_missing false
             (HashBoard.set_expected_chips num_of_chips b)))).

(** A board that a match has written: no longer missing, with a hashrate and
    as many chips as expected chips. *)
Definition populated (b : HashBoard.t) : Prop :=
  HashBoard.missing b = false /\
  HashBoard.hashrate b <> None /\
  HashBoard.chips b = Some (HashBoard.expected_chips b).

(** The string has the character. *)
Fixpoint has_char (c : ascii) (s : string) : bool :=
  match s with
  | EmptyString => false
  | String a r => Ascii.eqb a c || has_char c r
  end.

(** The state after one more request. *)
Definition requested {collaborators : Collaborators} (c : ePICWebAPI.command)
  (st : state) : state :=
  {| calls := calls st ++ [c]; config := config st |}.

(** A summary and per-chip data that report one board, at index -1. *)
Definition board_last : list (string * value) :=
  [("Index", VInt (-1));
   ("Hashrate", VList [VInt 95123456; VInt 100]);
   ("Temperature", VInt 60)].

Definition summary_last : list (string * value) :=
  [("HBs", VList [VDict board_last])].

Definition chips_last : list (string * value) :=
  [("Index", VInt (-1)); ("Data", VList [VInt 7; VInt 8])].

(** A summary with a status, a session, a power supply and two boards at
    ideal percentages 100 and 0. *)
Definition summary_running : list (string * value) :=
  [("Hostname", VStr "miner-7");
   ("Status", VDict [("Last Error", VStr "Fan failure")]);
   ("Session", VDict [("Uptime", VInt 86400)]);
   ("Misc", VDict [("Locate Miner State", VBool true)]);
   ("Power Supply Stats", VDict [("Input Power", VFloat 3250.5)]);
   ("HBs", VList [VDict [("Hashrate", VList [VInt 95123456; VInt 100])];
                  VDict [("Hashrate", VList [VFloat 500000.5; VInt 0])]])].

(** A network payload whose first interface has no MAC address. *)
Definition network_two_interfaces : list (string * value) :=
  [("eth0", VDict [("dhcp", VBool true)]);
   ("wlan0", VDict [("mac_address", VStr "aa:bb:cc:dd:ee:ff")])].

(** ** Properties *)

Section Properties.
Context {collaborators : Collaborators}.
Implicit Types (self : ePIC) (st : state) (p s : value).

(** *** The fetch prologue *)

Lemma fetch_if_None_supplied self c p st :
  is_None p = false -> fetch_if_None self c p st = (Ok p, st).
Proof. intros Hp. unfold fetch_if_None. now rewrite Hp. Qed.

Lemma fetch_if_None_works_from self c p s st :
  works_from self c p s ->
  exists st', fetch_if_None self c p st = (Ok s, st').
Proof.
  intros [q Hq | q Hq | Hq].
  - exists st. now apply fetch_if_None_supplied.
  - eexists. unfold fetch_if_None, try_except, call. cbn. now rewrite Hq.
  - eexists. unfold fetch_if_None, try_except, call. cbn. now rewrite Hq.
Qed.

(** What an extractor returns depends only on the payload it works from,
    when what follows the prologue does not touch the state. *)
Lemma bind_fetch_fst {A} self c p s st (k : value -> M A) (r : result A) :
  works_from self c p s ->
  (forall st', fst (k s st') = r) ->
  fst (bind (fetch_if_None self c p) k st) = r.
Proof.
  intros Hw Hk. destruct (fetch_if_None_works_from self c p s st Hw) as [st' E].
  unfold bind. rewrite E. apply Hk.
Qed.

(** C10: [fault_light_on], [fault_light_off] and [set_power_limit] return
    [False] and [send_config] returns [None], whatever the adapter, its
    state and the arguments; the state they leave is the one they started
    from, so no request was issued through the transport and
    [self.config] is untouched. *)
Theorem unsupported_actions_are_noops self st (wattage user_suffix : value)
  (cfg : MinerConfig) :
  fault_light_on self st = (Ok false, st) /\
  fault_light_off self st = (Ok false, st) /\
  set_power_limit self wattage st = (Ok false, st) /\
  send_config self cfg user_suffix st = (Ok tt, st).
Proof. repeat split. Qed.

(** Where [get_config] does return: a fetch that fails with [APIError] or
    a [LookupError], or answers [None], gives the default configuration; a
    payload that [MinerConfig.from_epic] translates gives the translation.
    The configuration is stored in [self.config]. *)
Lemma get_config_returns self st :
  (forall e, web self ePICWebAPI.summary = Raise e ->
             (is_APIError e || is_LookupError e) = true ->
             get_config self st
             = (Ok MinerConfig_new,
                {| calls := calls st ++ [ePICWebAPI.summary];
                   config := Some MinerConfig_new |})) /\
  (web self ePICWebAPI.summary = Ok VNone ->
   get_config self st
   = (Ok MinerConfig_new,
      {| calls := calls st ++ [ePICWebAPI.summary];
         config := Some MinerConfig_new |})) /\
  (forall payload cfg,
      web self ePICWebAPI.summary = Ok payload ->
      is_None payload = false ->
      MinerConfig_from_epic payload = Ok cfg ->
      get_config self st
      = (Ok cfg,
         {| calls := calls st ++ [ePICWebAPI.summary]; config := Some cfg |})).
Proof.
  unfold get_config, bind, try_except, call, set_config, ret, lift.
  repeat split.
  - intros e E C. rewrite E. cbn. rewrite C. reflexivity.
  - intros E. rewrite E. reflexivity.
  - intros payload cfg E N T. rewrite E. cbn. rewrite N. cbn. rewrite T.
    reflexivity.
Qed.

(** C6, at the inputs where it fails: the fetch returns a payload and
    [MinerConfig.from_epic] raises on it (a [KeyError] on a payload without
    the key it reads, say).  The translation is called after the [try]
    statement has ended, so nothing in [get_config] catches the exception:
    it reaches the caller, no configuration is returned and [self.config]
    is left as it was. *)
Theorem get_config_raises_on_translation_failure self st (payload : value)
  (e : exn) :
  web self ePICWebAPI.summary = Ok payload ->
  is_None payload = false ->
  MinerConfig_from_epic payload = Raise e ->
  get_config self st
  = (Raise e, {| calls := calls st ++ [ePICWebAPI.summary]; config := config st |}).
Proof.
  intros E N T. unfold get_config, bind, try_except, call, lift.
  rewrite E. cbn. rewrite N. cbn. rewrite T. reflexivity.
Qed.

(** *** The actions *)

Lemma success_of_falsy (data : value) st :
  py_truthy data = false -> success_of data st = (Ok (VBool false), st).
Proof. intros H. unfold success_of. now rewrite H. Qed.

Lemma success_of_flag (d : list (string * value)) (flag : value) st :
  py_truthy (VDict d) = true ->
  dict_get "success" d = Some flag ->
  success_of (VDict d) st = (Ok flag, st).
Proof.
  intros T H. unfold success_of, try_except, lift. rewrite T. cbn. now rewrite H.
Qed.

Lemma success_of_no_flag (d : list (string * value)) st :
  dict_get "success" d = None ->
  success_of (VDict d) st = (Ok (VBool false), st).
Proof.
  intros H. unfold success_of, try_except, lift, ret.
  destruct (py_truthy (VDict d)); [cbn; now rewrite H | reflexivity].
Qed.

(** When the transport answers, an action issues its one request and
    returns the success flag of a truthy answer that has one, [False]
    otherwise. *)
Lemma actions_answered self st :
  (forall data, web self ePICWebAPI.restart_epic = Ok data ->
     restart_backend self st =
       success_of data
         {| calls := calls st ++ [ePICWebAPI.restart_epic]; config := config st |}) /\
  (forall data, web self ePICWebAPI.stop_mining = Ok data ->
     stop_mining self st =
       success_of data
         {| calls := calls st ++ [ePICWebAPI.stop_mining]; config := config st |}) /\
  (forall data, web self ePICWebAPI.resume_mining = Ok data ->
     resume_mining self st =
       success_of data
         {| calls := calls st ++ [ePICWebAPI.resume_mining]; config := config st |}) /\
  (forall data, web self ePICWebAPI.reboot = Ok data ->
     reboot self st =
       success_of data
         {| calls := calls st ++ [ePICWebAPI.reboot]; config := config st |}).
Proof.
  unfold restart_backend, stop_mining, resume_mining, reboot, bind, call.
  repeat split; intros data H; now rewrite H.
Qed.

(** C5, at the inputs where it fails: when the transport call of an action
    raises (an [APIError], say), nothing in [restart_backend], [stop_mining],
    [resume_mining] or [reboot] catches the exception; it reaches the caller
    instead of [False] being returned. *)
Theorem actions_raise_on_transport_failure self st (e : exn) :
  (forall c, web self c = Raise e) ->
  fst (restart_backend self st) = Raise e /\
  fst (stop_mining self st) = Raise e /\
  fst (resume_mining self st) = Raise e /\
  fst (reboot self st) = Raise e.
Proof.
  intros H.
  unfold restart_backend, stop_mining, resume_mining, reboot, bind, call.
  now rewrite !H.
Qed.

(** *** Fetches of the extractors *)

(** C4, at the inputs where it fails: called with both payloads supplied,
    [_get_hashboards] still issues a [hashrate] request of its own, because
    its guard reads [if web_hashrate is not None]. *)
Theorem hashboards_fetches_supplied_payload self st (web_summary web_hashrate : value) :
  is_None web_summary = false ->
  is_None web_hashrate = false ->
  calls (snd (_get_hashboards self web_summary web_hashrate st))
  = calls st ++ [ePICWebAPI.hashrate].
Proof.
  intros Hs Hh. unfold _get_hashboards, bind.
  rewrite (fetch_if_None_supplied _ _ _ _ Hs), Hh. cbn.
  unfold try_except, call, ret, lift.
  destruct (web self ePICWebAPI.hashrate) as [h | e]; cbn.
  - destruct (py_get web_summary "HBs") as [hbs | e]; cbn; [| reflexivity].
    now destruct (is_None hbs).
  - destruct (is_APIError e); cbn; [| reflexivity].
    destruct (py_get web_summary "HBs") as [hbs | e']; cbn; [| reflexivity].
    now destruct (is_None hbs).
Qed.

(** The guard of [_get_errors] is [if not web_summary]: a supplied but
    empty payload is fetched again as well. *)
Lemma errors_fetches_supplied_empty_payload self st :
  calls (snd (_get_errors self (VDict []) st)) = calls st ++ [ePICWebAPI.summary].
Proof.
  unfold _get_errors, bind, try_except, call, ret, lift. cbn.
  destruct (web self ePICWebAPI.summary) as [s | e]; cbn.
  - destruct (is_None s); cbn; [reflexivity |].
    destruct (py_getitem s (VStr "Status")) as [status | e]; cbn.
    + destruct (py_getitem status (VStr "Last Error")) as [err | e]; cbn.
      * now destruct (is_None err).
      * now destruct (is_KeyError e).
    + now destruct (is_KeyError e).
  - now destruct (is_APIError e).
Qed.

(** What follows the prologue of an extractor leaves the state alone. *)
Lemma try_lift_state {A} (r : result A) (caught : exn -> bool) (v : A) st :
  snd (try_except (lift r) caught (ret v) st) = st.
Proof.
  unfold try_except, lift, ret. destruct r as [a | e]; [reflexivity |].
  now destruct (caught e).
Qed.

Ltac supplied_payload H :=
  unfold bind; rewrite (fetch_if_None_supplied _ _ _ _ H), H;
  cbn [negb]; try apply try_lift_state; reflexivity.

(** The extractors that open with the common prologue leave the transport
    alone, and the state as it was, when their payload is supplied. *)
Lemma extractors_use_supplied_payload self st (payload : value) :
  is_None payload = false ->
  snd (_get_mac self payload st) = st /\
  snd (_get_hostname self payload st) = st /\
  snd (_get_wattage self payload st) = st /\
  snd (_get_hashrate self payload st) = st /\
  snd (_get_expected_hashrate self payload st) = st /\
  snd (_get_fw_ver self payload st) = st /\
  snd (_get_fans self payload st) = st /\
  snd (_get_uptime self payload st) = st /\
  snd (_get_fault_light self payload st) = st.
Proof.
  intros H. repeat split.
  - unfold _get_mac. supplied_payload H.
  - unfold _get_hostname. supplied_payload H.
  - unfold _get_wattage. supplied_payload H.
  - unfold _get_hashrate. supplied_payload H.
  - unfold _get_expected_hashrate. supplied_payload H.
  - unfold _get_fw_ver. supplied_payload H.
  - unfold _get_fans. supplied_payload H.
  - unfold _get_uptime. supplied_payload H.
  - unfold _get_fault_light. supplied_payload H.
Qed.

(** *** Exceptions that reach the caller *)

(** C2, at inputs where it fails: a [Software] string without a second
    piece makes [_get_fw_ver] raise [IndexError] (only [KeyError] is
    caught); [_get_hashboards] has no [try] at all and raises [TypeError]
    when a board is reported and no per-chip payload was supplied;
    [_get_wattage] raises [TypeError] on a power that is not a number;
    [_get_fans] raises [KeyError] when the fan mapping is missing. *)
Theorem extractors_propagate_exceptions self st :
  _get_fw_ver self (VDict [("Software", VStr "PowerPlay")]) st
    = (Raise IndexError, st) /\
  _get_hashboards self (VDict [("HBs", VList [VDict []])]) VNone st
    = (Raise TypeError, st) /\
  _get_wattage self
    (VDict [("Power Supply Stats", VDict [("Input Power", VStr "n/a")])]) st
    = (Raise TypeError, st) /\
  _get_fans self (VDict []) st = (Raise KeyError, st).
Proof. repeat split. Qed.

(** *** Paths that end at a missing key *)

(** Navigating [payload[k1][k2]] raises [KeyError] when a key is missing. *)
Lemma key_missing_KeyError (payload : value) (k1 k2 : string) :
  key_missing payload k1 k2 ->
  rbind (py_getitem payload (VStr k1)) (fun x => py_getitem x (VStr k2))
  = Raise KeyError.
Proof.
  intros (d & -> & [H | (d1 & H & H1)]); cbn; rewrite H; cbn;
    [reflexivity | now rewrite H1].
Qed.

(** C9 as amended: when the extractor has no summary to work from, or the
    fixed path ends at a key that a dict on it lacks, [_get_uptime] and
    [_get_wattage] return [None] and [_get_fault_light] returns [False];
    [_is_mining] returns [None] on every input. *)
Theorem missing_path_results self st (web_summary s : value) :
  works_from self ePICWebAPI.summary web_summary s ->
  (s = VNone \/ key_missing s "Session" "Uptime" ->
   fst (_get_uptime self web_summary st) = Ok VNone) /\
  (s = VNone \/ key_missing s "Power Supply Stats" "Input Power" ->
   fst (_get_wattage self web_summary st) = Ok VNone) /\
  (s = VNone \/ key_missing s "Misc" "Locate Miner State" ->
   fst (_get_fault_light self web_summary st) = Ok (VBool false)) /\
  fst (_is_mining self st) = Ok VNone.
Proof.
  intros Hw. repeat split.
  - intros H. unfold _get_uptime. apply (bind_fetch_fst _ _ _ s); [assumption |].
    intros st'. destruct H as [-> | H]; [reflexivity |].
    pose proof (key_missing_KeyError _ _ _ H) as E.
    destruct H as (d & -> & _). unfold try_except, lift. cbn in *. now rewrite E.
  - intros H. unfold _get_wattage. apply (bind_fetch_fst _ _ _ s); [assumption |].
    intros st'. destruct H as [-> | H]; [reflexivity |].
    destruct H as (d & -> & [H | (d1 & H & H1)]);
      unfold try_except, lift; cbn; rewrite H; cbn; [reflexivity |].
    now rewrite H1.
  - intros H. unfold _get_fault_light. apply (bind_fetch_fst _ _ _ s); [assumption |].
    intros st'. destruct H as [-> | H]; [reflexivity |].
    pose proof (key_missing_KeyError _ _ _ H) as E.
    destruct H as (d & -> & _). unfold try_except, lift. cbn in *. now rewrite E.
Qed.

(** *** The firmware version *)

(** *** The fans *)

Lemma dict_get_In_distinct (d : list (string * value)) (k : string) (v : value) :
  distinct (dict_keys d) = true -> In (k, v) d -> dict_get k d = Some v.
Proof.
  induction d as [| [k' v'] r IH]; cbn; [tauto |].
  intros Hd [E | Hin].
  - injection E as -> ->. now rewrite String.eqb_refl.
  - apply andb_prop in Hd as [Hk Hr].
    destruct (String.eqb k k') eqn:E; [| auto].
    apply String.eqb_eq in E. subst k'.
    apply negb_true_iff in Hk.
    assert (X : existsb (String.eqb k) (map fst r) = true).
    { apply existsb_exists. exists k. split; [| apply String.eqb_refl].
      change k with (fst (k, v)). now apply in_map. }
    unfold dict_keys in Hk. congruence.
Qed.

(** One turn of the loop of [_get_fans] appends the fan of the entry. *)
Lemma add_fan_entry (d rpm : list (string * value)) (fans : list Fan)
  (k : string) (v : value) :
  dict_get "Fans Rpm" d = Some (VDict rpm) ->
  dict_get k rpm = Some v ->
  (forall x e, Fan_new x = Raise e -> is_parse_error e = true) ->
  add_fan (VDict d) fans (VStr k) = Ok (fans ++ [fan_of (k, v)]).
Proof.
  intros Hd Hk Hf. unfold add_fan, rtry, fan_of. cbn. rewrite Hd. cbn. rewrite Hk. cbn.
  destruct (Fan_new v) as [f | e] eqn:E; cbn; [reflexivity |].
  now rewrite (Hf v e E).
Qed.

Lemma fans_loop (d rpm : list (string * value)) :
  dict_get "Fans Rpm" d = Some (VDict rpm) ->
  (forall x e, Fan_new x = Raise e -> is_parse_error e = true) ->
  forall (entries : list (string * value)) (fans : list Fan),
    (forall k v, In (k, v) entries -> dict_get k rpm = Some v) ->
    for_each (add_fan (VDict d)) (map VStr (dict_keys entries)) fans
    = Ok (fans ++ map fan_of entries).
Proof.
  intros Hd Hf. induction entries as [| [k v] r IH]; intros fans Hin; cbn.
  - now rewrite app_nil_r.
  - rewrite (add_fan_entry d rpm fans k v Hd (Hin k v (or_introl eq_refl)) Hf). cbn.
    unfold dict_keys in IH. rewrite IH by (intros; apply Hin; now right).
    now rewrite <- app_assoc.
Qed.

(** C8: when the summary the extractor works from has a fan mapping, and
    the only failures of [Fan(speed)] are lookup, value or type errors,
    [_get_fans] returns one fan per entry of the mapping, in the order of
    the mapping: the fan built from the entry's speed, or the unknown-speed
    fan [Fan()] where building it fails.  The list is as long as the
    mapping. *)
Theorem fans_one_per_entry self st (web_summary : value)
  (d rpm : list (string * value)) :
  works_from self ePICWebAPI.summary web_summary (VDict d) ->
  dict_get "Fans Rpm" d = Some (VDict rpm) ->
  distinct (dict_keys rpm) = true ->
  (forall x e, Fan_new x = Raise e -> is_parse_error e = true) ->
  exists fans : list Fan,
    fst (_get_fans self web_summary st) = Ok fans /\
    fans = map fan_of rpm /\
    length fans = length rpm.
Proof.
  intros Hw Hd Hk Hf. exists (map fan_of rpm).
  split; [| split; [reflexivity | apply length_map]].
  unfold _get_fans. apply (bind_fetch_fst _ _ _ (VDict d)); [assumption |].
  intros st'. unfold lift. cbn. rewrite Hd. cbn.
  now rewrite (fans_loop d rpm Hd Hf rpm [] (fun k v => dict_get_In_distinct rpm k v Hk)).
Qed.

(** *** Indexing *)

Lemma getitem_key (d : list (string * value)) (k : string) (v : value) :
  dict_get k d = Some v -> py_getitem (VDict d) (VStr k) = Ok v.
Proof. intros H. cbn. now rewrite H. Qed.

Lemma getitem_first (x : value) (r : list value) :
  py_getitem (VList (x :: r)) (VInt 0) = Ok x.
Proof.
  cbn [py_getitem index_of]. unfold resolve_index.
  replace (0 <? Z.of_nat (length (x :: r))) with true
    by (symmetry; apply Z.ltb_lt; cbn [length]; lia).
  reflexivity.
Qed.

Lemma getitem_second (x y : value) (r : list value) :
  py_getitem (VList (x :: y :: r)) (VInt 1) = Ok y.
Proof.
  cbn [py_getitem index_of]. unfold resolve_index.
  replace (1 <? Z.of_nat (length (x :: y :: r))) with true
    by (symmetry; apply Z.ltb_lt; cbn [length]; lia).
  reflexivity.
Qed.

(** *** The expected hashrate *)

Lemma float_of_int_hundred : float_of_int 100 = Ok 100%float.
Proof. vm_compute. reflexivity. Qed.

Lemma float_of_int_million : float_of_int 1000000 = Ok 1000000%float.
Proof. vm_compute. reflexivity. Qed.

(** C1, at the inputs where it fails: the first board has an ideal
    percentage that is a float other than 0 and so small that its division
    by 100 gives 0.0 (the smallest positive float, say), and a measured
    value that is a number.  The guard of the extractor compares the
    percentage with 0, not the ratio: the ratio is 0.0, the division of the
    measured value by it raises [ZeroDivisionError], and the [except] clause
    does not name that exception.  It reaches the caller: no sum is
    returned, whatever boards follow. *)
Theorem expected_hashrate_divides_by_zero self st (web_summary : value)
  (d hb : list (string * value)) (rest : list value) (measured : value)
  (n : Z + float) (f percent : float) :
  works_from self ePICWebAPI.summary web_summary (VDict d) ->
  dict_get "HBs" d = Some (VList (VDict hb :: rest)) ->
  dict_get "Hashrate" hb = Some (VList [measured; VFloat percent]) ->
  number_of measured = Some n ->
  as_float n = Ok f ->
  py_eq (VFloat percent) (VInt 0) = false ->
  PrimFloat.eqb (PrimFloat.div percent 100) PrimFloat.zero = true ->
  fst (_get_expected_hashrate self web_summary st) = Raise ZeroDivisionError.
Proof.
  intros Hw Hd Hp Hn Hf H0 Hu. unfold _get_expected_hashrate.
  apply (bind_fetch_fst _ _ _ (VDict d)); [assumption |].
  intros st'. unfold try_except, lift.
  cbn -[for_each to_mega]. rewrite Hd. cbn -[for_each to_mega add_expected].
  assert (E : add_expected (VInt 0) (VDict hb) = Raise ZeroDivisionError).
  { unfold add_expected. rewrite (getitem_key hb "Hashrate" _ Hp). cbn [rbind].
    rewrite getitem_second, getitem_first. cbn [rbind]. rewrite H0.
    assert (I : py_truediv (VFloat percent) (VInt 100)
                = Ok (PrimFloat.div percent 100)).
    { unfold py_truediv. cbn [number_of as_float rbind].
      rewrite float_of_int_hundred. cbn [rbind]. unfold float_truediv.
      change (PrimFloat.eqb 100 PrimFloat.zero) with false. reflexivity. }
    rewrite I. cbn [rbind].
    assert (T : py_truediv measured (VFloat (PrimFloat.div percent 100))
                = Raise ZeroDivisionError).
    { unfold py_truediv. rewrite Hn. cbn [number_of].
      assert (R : rbind (as_float n) (fun x =>
                  rbind (as_float (inr (PrimFloat.div percent 100))) (fun g =>
                  float_truediv x g)) = Raise ZeroDivisionError).
      { rewrite Hf. cbn [rbind as_float]. unfold float_truediv. now rewrite Hu. }
      destruct n; exact R. }
    now rewrite T. }
  cbn [for_each]. rewrite E. reflexivity.
Qed.

(** *** The expected hashrate, where no ratio is 0.0 *)

Lemma Qpow2_nonzero (e : Z) : ~ (Qpow2 e == 0)%Q.
Proof.
  destruct e as [| p | p]; unfold Qpow2, Qeq; cbn [Qnum Qden inject_Z].
  - discriminate.
  - rewrite Z.mul_1_r, Z.mul_0_l.
    pose proof (Z.pow_pos_nonneg 2 (Z.pos p)). lia.
  - discriminate.
Qed.

(** A float equals the int 0 when it is one of the two zeros. *)
Lemma py_eq_float_zero (p : float) :
  py_eq (VFloat p) (VInt 0) = PrimFloat.eqb p PrimFloat.zero.
Proof.
  cbn [py_eq number_of number_eqb]. rewrite FloatAxioms.eqb_spec.
  unfold Q_of_float.
  change (FloatOps.Prim2SF PrimFloat.zero) with (SpecFloat.S754_zero false).
  destruct (FloatOps.Prim2SF p) as [s | s | | s m e].
  - reflexivity.
  - now destruct s.
  - reflexivity.
  - transitivity false; [| now destruct s].
    destruct (Qeq_bool (inject_Z 0)
                (Qred (inject_Z (if s then Z.neg m else Z.pos m) * Qpow2 e)))
      eqn:E; [| reflexivity].
    apply Qeq_bool_eq in E. rewrite Qred_correct in E. symmetry in E.
    apply Qmult_integral in E as [E | E].
    + destruct s; discriminate E.
    + now destruct (Qpow2_nonzero e).
Qed.

(** One turn of the loop adds the measured value over the efficiency
    ratio. *)
Lemma add_expected_pair (acc hb : value) (n : Z + float) (a : float)
  (mp : float * float) :
  board_pair hb mp ->
  number_of acc = Some n ->
  as_float n = Ok a ->
  PrimFloat.eqb (efficiency_ratio (snd mp)) PrimFloat.zero = false ->
  add_expected acc hb
  = Ok (VFloat (PrimFloat.add a
                  (PrimFloat.div (fst mp) (efficiency_ratio (snd mp))))).
Proof.
  destruct mp as [m p]. cbn [fst snd].
  intros (d & vm & vp & k & -> & Hd & Hk & Hm & Hp) Hn Ha Hr.
  cbn [fst snd] in Hm, Hp.
  unfold add_expected. rewrite (getitem_key d "Hashrate" _ Hd). cbn [rbind].
  rewrite getitem_second, getitem_first. cbn [rbind].
  assert (I : (if py_eq vp (VInt 0) then Ok PrimFloat.one
               else py_truediv vp (VInt 100)) = Ok (efficiency_ratio p)).
  { destruct Hp as [-> | [-> ->]]; [| reflexivity].
    rewrite py_eq_float_zero. unfold efficiency_ratio.
    destruct (PrimFloat.eqb p PrimFloat.zero); [reflexivity |].
    unfold py_truediv. cbn [number_of as_float rbind].
    rewrite float_of_int_hundred. cbn [rbind]. unfold float_truediv.
    change (PrimFloat.eqb 100 PrimFloat.zero) with false. reflexivity. }
  rewrite I. cbn [rbind].
  assert (T : py_truediv vm (VFloat (efficiency_ratio p))
              = Ok (PrimFloat.div m (efficiency_ratio p))).
  { unfold py_truediv. rewrite Hk. cbn [number_of].
    assert (R : rbind (as_float k) (fun x =>
                rbind (as_float (inr (efficiency_ratio p))) (fun g =>
                float_truediv x g))
                = Ok (PrimFloat.div m (efficiency_ratio p))).
    { rewrite Hm. cbn [rbind as_float]. unfold float_truediv. now rewrite Hr. }
    destruct k; exact R. }
  rewrite T. cbn [rbind].
  assert (A : forall t, py_add acc (VFloat t) = Ok (VFloat (PrimFloat.add a t))).
  { intros t.
    assert (R : rbind (as_float n) (fun x =>
                rbind (as_float (inr t)) (fun g =>
                Ok (VFloat (PrimFloat.add x g))))
                = Ok (VFloat (PrimFloat.add a t))).
    { rewrite Ha. reflexivity. }
    destruct acc; try discriminate Hn; cbn [py_add]; rewrite Hn;
      destruct n; exact R. }
  apply A.
Qed.

(** The loop of [_get_expected_hashrate] computes the sum of the
    specification, from any float. *)
Lemma expected_loop (boards : list value) (pairs : list (float * float)) :
  Forall2 board_pair boards pairs ->
  Forall (fun mp => PrimFloat.eqb (efficiency_ratio (snd mp)) PrimFloat.zero
                    = false) pairs ->
  forall a : float,
    for_each add_expected boards (VFloat a)
    = Ok (VFloat (fold_left
                    (fun acc mp =>
                       PrimFloat.add acc
                         (PrimFloat.div (fst mp) (efficiency_ratio (snd mp))))
                    pairs a)).
Proof.
  induction 1 as [| hb mp boards pairs Hb _ IH]; intros Hr a;
    cbn [for_each fold_left]; [reflexivity |].
  inversion Hr as [| ? ? R1 R2]; subst.
  rewrite (add_expected_pair (VFloat a) hb (inr a) a mp Hb eq_refl eq_refl R1).
  cbn [rbind]. now apply IH.
Qed.

(** X9: when the summary the extractor works from has its list of boards,
    each with a [Hashrate] pair of a measured number and an ideal
    percentage that is a float or the int 0, and no efficiency ratio is 0.0,
    [_get_expected_hashrate] returns the sum over the boards, in float
    arithmetic and in the order of the list, of measured / (percentage /
    100), with divisor 1.0 for a board whose percentage is 0; the sum is
    divided by 1,000,000 and rounded to 2 decimal places. *)
Theorem expected_hashrate_follows_the_formula self st (web_summary : value)
  (d : list (string * value)) (boards : list value)
  (pairs : list (float * float)) :
  works_from self ePICWebAPI.summary web_summary (VDict d) ->
  dict_get "HBs" d = Some (VList boards) ->
  Forall2 board_pair boards pairs ->
  Forall (fun mp => PrimFloat.eqb (efficiency_ratio (snd mp)) PrimFloat.zero
                    = false) pairs ->
  fst (_get_expected_hashrate self web_summary st)
  = Ok (VFloat (round2 (PrimFloat.div (expected_total pairs) 1000000))).
Proof.
  intros Hw Hd Hb Hr. unfold _get_expected_hashrate.
  apply (bind_fetch_fst _ _ _ (VDict d)); [assumption |].
  intros st'. unfold try_except, lift.
  cbn -[for_each to_mega]. rewrite Hd. cbn -[for_each to_mega].
  destruct Hb as [| hb mp boards pairs Hb Hbs].
  - vm_compute. reflexivity.
  - inversion Hr as [| ? ? R1 R2]; subst.
    cbn [for_each].
    rewrite (add_expected_pair (VInt 0) hb (inl 0) PrimFloat.zero mp Hb
               eq_refl eq_refl R1).
    cbn [rbind]. rewrite (expected_loop boards pairs Hbs R2). cbn [rbind].
    unfold to_mega, py_truediv. cbn [number_of as_float rbind].
    rewrite float_of_int_million. cbn [rbind]. unfold float_truediv.
    change (PrimFloat.eqb 1000000 PrimFloat.zero) with false.
    reflexivity.
Qed.

(** *** The hashboards *)

Lemma for_each_unchanged {A B} (body : A -> B -> result A) (l : list B) (acc : A) :
  (forall x, In x l -> body acc x = Ok acc) -> for_each body l acc = Ok acc.
Proof.
  induction l as [| x r IH]; intros H; cbn; [reflexivity |].
  rewrite (H x (or_introl eq_refl)). cbn. apply IH. intros y Hy. apply H. now right.
Qed.

(** C3, at the inputs where it fails: both payloads are supplied, and the
    device answers the [hashrate] request that the extractor issues all the
    same with an empty list.  The supplied per-chip payload is then never
    read: whatever boards it and the summary report (board 1 alone, say, of
    3 expected), every slot of the returned list is as it was allocated,
    flagged missing. *)
Theorem hashboards_refetch_overrides_supplied self st (web_hashrate : value)
  (d : list (string * value)) (boards : list value) :
  is_None web_hashrate = false ->
  web self ePICWebAPI.hashrate = Ok (VList []) ->
  dict_get "HBs" d = Some (VList boards) ->
  fst (_get_hashboards self (VDict d) web_hashrate st)
  = Ok (map (fun i => HashBoard.new i (expected_chips self))
          (range (expected_hashboards self))).
Proof.
  intros Hh Hw Hd. unfold _get_hashboards, bind.
  rewrite (fetch_if_None_supplied self _ (VDict d) st eq_refl), Hh.
  unfold try_except, call, lift, ret. cbn -[range for_each]. rewrite Hw.
  cbn -[range for_each]. rewrite Hd. cbn -[range for_each].
  now rewrite for_each_unchanged.
Qed.

(** With a device that answers the [hashrate] request with the payload that
    was supplied, or fails it with [APIError], the list is assembled from
    the supplied payloads: for three expected boards of which board 1 alone
    is reported, slots 0 and 2 stay missing and slot 1 gets the chip count,
    the hashrate (the measured value divided by 1,000,000, a division that
    may raise, and rounded to 2 decimal places) and the temperature. *)
Lemma hashboards_single_board self st (web_summary web_hashrate : value)
  (d hb hr : list (string * value)) (measured temperature : value)
  (rest data : list value) (mega : float) :
  expected_hashboards self = 3 ->
  works_from self ePICWebAPI.summary web_summary (VDict d) ->
  dict_get "HBs" d = Some (VList [VDict hb]) ->
  dict_get "Index" hb = Some (VInt 1) ->
  dict_get "Hashrate" hb = Some (VList (measured :: rest)) ->
  py_truediv measured (VInt 1000000) = Ok mega ->
  dict_get "Temperature" hb = Some temperature ->
  web_hashrate = VList [VDict hr] ->
  dict_get "Index" hr = Some (VInt 1) ->
  dict_get "Data" hr = Some (VList data) ->
  web self ePICWebAPI.hashrate = Ok web_hashrate \/
  web self ePICWebAPI.hashrate = Raise APIError ->
  fst (_get_hashboards self web_summary web_hashrate st)
  = Ok [HashBoard.new 0 (expected_chips self);
        {| HashBoard.slot := 1;
           HashBoard.hashrate := Some (round2 mega);
           HashBoard.temp := temperature;
           HashBoard.chips := Some (Z.of_nat (length data));
           HashBoard.expected_chips := Z.of_nat (length data);
           HashBoard.missing := false |};
        HashBoard.new 2 (expected_chips self)].
Proof.
  intros Hn Hw Hd Hi Hr Hq Ht -> Hri Hrd Hweb.
  unfold _get_hashboards. apply (bind_fetch_fst _ _ _ (VDict d)); [assumption |].
  intros st'. unfold bind. cbn [is_None negb].
  assert (E : exists st'',
             try_except (call self ePICWebAPI.hashrate) is_APIError
               (ret (VList [VDict hr])) st' = (Ok (VList [VDict hr]), st'')).
  { unfold try_except, call, ret. destruct Hweb as [-> | ->]; cbn; eauto. }
  destruct E as [st'' ->]. rewrite Hn.
  unfold lift. cbn -[match_board]. rewrite Hd. cbn -[match_board].
  unfold match_board.
  rewrite (getitem_key hr "Index" _ Hri), (getitem_key hb "Index" _ Hi).
  cbn [rbind]. change (py_eq (VInt 1) (VInt 1)) with true. cbn iota.
  rewrite (getitem_key hr "Data" _ Hrd), (getitem_key hb "Hashrate" _ Hr).
  cbn [rbind py_len]. rewrite getitem_first. cbn [rbind].
  rewrite (getitem_key hb "Temperature" _ Ht), Hq.
  reflexivity.
Qed.

(** *** Requests and state of the extractors *)

Lemma fetch_if_None_state self c p st :
  snd (fetch_if_None self c p st) = if is_None p then requested c st else st.
Proof.
  unfold fetch_if_None, try_except, call, ret, requested.
  destruct (is_None p); [| reflexivity].
  destruct (web self c) as [v | e]; [reflexivity |].
  now destruct (is_APIError e).
Qed.

(** An extractor with the common prologue, whose remainder [k] leaves the
    state alone, ends in the state the prologue leaves. *)
Lemma bind_fetch_state {A} self c p st (k : value -> M A) :
  (forall v st', snd (k v st') = st') ->
  snd (bind (fetch_if_None self c p) k st)
  = if is_None p then requested c st else st.
Proof.
  intros Hk. rewrite <- (fetch_if_None_state self c p st). unfold bind.
  destruct (fetch_if_None self c p st) as [[v | e] st']; [apply Hk | reflexivity].
Qed.

Ltac state_of_tail :=
  intros v st'; cbn beta;
  match goal with
  | |- context [if ?b then _ else _] => destruct b
  | _ => idtac
  end;
  first [apply try_lift_state | reflexivity].

(** X1: each of the nine extractors that open with the common prologue
    issues exactly one request, for its own endpoint, when it is called
    without a payload, and none when a payload is supplied; this holds
    whatever the transport answers and whether the extractor returns or
    raises.  None of them writes [self.config]. *)
Theorem extractors_request_only_when_not_supplied self st (payload : value) :
  let after c := if is_None payload then requested c st else st in
  snd (_get_mac self payload st) = after ePICWebAPI.network /\
  snd (_get_hostname self payload st) = after ePICWebAPI.summary /\
  snd (_get_wattage self payload st) = after ePICWebAPI.summary /\
  snd (_get_hashrate self payload st) = after ePICWebAPI.summary /\
  snd (_get_expected_hashrate self payload st) = after ePICWebAPI.summary /\
  snd (_get_fw_ver self payload st) = after ePICWebAPI.summary /\
  snd (_get_fans self payload st) = after ePICWebAPI.summary /\
  snd (_get_uptime self payload st) = after ePICWebAPI.summary /\
  snd (_get_fault_light self payload st) = after ePICWebAPI.summary.
Proof.
  cbv beta zeta.
  unfold _get_mac, _get_hostname, _get_wattage, _get_hashrate,
    _get_expected_hashrate, _get_fw_ver, _get_fans, _get_uptime, _get_fault_light.
  repeat match goal with |- _ /\ _ => split end;
    apply (bind_fetch_state self); state_of_tail.
Qed.

(** *** The actions, when the transport answers *)

Lemma success_of_state (data : value) st : snd (success_of data st) = st.
Proof.
  unfold success_of. destruct (py_truthy data); [apply try_lift_state | reflexivity].
Qed.

Lemma action_state self c st :
  snd (bind (call self c) success_of st) = requested c st.
Proof.
  unfold bind, call, requested. destruct (web self c) as [data | e]; [| reflexivity].
  apply success_of_state.
Qed.

(** X2: each of the four actions issues exactly one request, the one of its
    own command, and leaves [self.config] as it was, whatever the transport
    answers and whether the action returns or raises. *)
Theorem actions_issue_one_request self st :
  snd (restart_backend self st) = requested ePICWebAPI.restart_epic st /\
  snd (stop_mining self st) = requested ePICWebAPI.stop_mining st /\
  snd (resume_mining self st) = requested ePICWebAPI.resume_mining st /\
  snd (reboot self st) = requested ePICWebAPI.reboot st.
Proof. repeat split; apply action_state. Qed.

Lemma success_of_dict (d : list (string * value)) st :
  fst (success_of (VDict d) st)
  = Ok (match dict_get "success" d with Some flag => flag | None => VBool false end).
Proof.
  destruct (dict_get "success" d) as [flag |] eqn:E.
  - destruct d as [| kv r]; [discriminate E |].
    now rewrite (success_of_flag (kv :: r) flag st eq_refl E).
  - now rewrite (success_of_no_flag d st E).
Qed.

Lemma action_result self c st (d : list (string * value)) :
  web self c = Ok (VDict d) ->
  fst (bind (call self c) success_of st)
  = Ok (match dict_get "success" d with Some flag => flag | None => VBool false end).
Proof. intros H. unfold bind, call. rewrite H. apply success_of_dict. Qed.

(** X3: when the transport answers an action with a dict, the action returns
    the value stored under ["success"], as it is, and [False] when the dict
    has no such key (the empty dict included). *)
Theorem actions_return_the_success_entry self st (d : list (string * value)) :
  let outcome :=
    Ok (match dict_get "success" d with Some flag => flag | None => VBool false end) in
  (web self ePICWebAPI.restart_epic = Ok (VDict d) ->
   fst (restart_backend self st) = outcome) /\
  (web self ePICWebAPI.stop_mining = Ok (VDict d) ->
   fst (stop_mining self st) = outcome) /\
  (web self ePICWebAPI.resume_mining = Ok (VDict d) ->
   fst (resume_mining self st) = outcome) /\
  (web self ePICWebAPI.reboot = Ok (VDict d) ->
   fst (reboot self st) = outcome).
Proof. cbv zeta. repeat split; intros H; now apply action_result. Qed.

(** *** The errors *)

(** X4: called with a non-empty summary dict, [_get_errors] issues no
    request; it returns the empty list when [Status] is missing, and when
    [Status] is a dict whose [Last Error] is missing or [None]; it returns
    the list of the one wrapped error when [Last Error] is anything else. *)
Theorem errors_wraps_the_last_error self st (d : list (string * value)) :
  d <> [] ->
  (dict_get "Status" d = None -> _get_errors self (VDict d) st = (Ok [], st)) /\
  (forall status,
      dict_get "Status" d = Some (VDict status) ->
      _get_errors self (VDict d) st
      = (Ok match dict_get "Last Error" status with
            | Some error => if is_None error then [] else [X19Error_str error]
            | None => []
            end, st)).
Proof.
  intros Hd. destruct d as [| kv r]; [congruence |].
  unfold _get_errors, bind, try_except, lift, ret. cbn [py_truthy negb is_None].
  cbn [py_getitem]. split.
  - intros ->. reflexivity.
  - intros status ->. cbn [rbind py_getitem].
    destruct (dict_get "Last Error" status) as [error |]; [| reflexivity].
    cbn [rbind]. now destruct (is_None error).
Qed.

(** *** The MAC address *)

(** X5: [_get_mac] looks at the first interface of the network payload only:
    it returns the [mac_address] of that interface, and [None] when that
    interface is a dict without one, whatever the interfaces after it hold;
    for a payload without interfaces it returns [None]. *)
Theorem mac_of_first_interface_only self st (web_network : value)
  (d : list (string * value)) :
  works_from self ePICWebAPI.network web_network (VDict d) ->
  (d = [] -> fst (_get_mac self web_network st) = Ok VNone) /\
  (forall name interface others,
      d = (name, VDict interface) :: others ->
      fst (_get_mac self web_network st)
      = Ok (match dict_get "mac_address" interface with
            | Some mac => mac
            | None => VNone
            end)).
Proof.
  intros Hw. split.
  - intros ->. unfold _get_mac. now apply (bind_fetch_fst _ _ _ (VDict [])).
  - intros name interface others ->. unfold _get_mac.
    apply (bind_fetch_fst _ _ _ (VDict ((name, VDict interface) :: others)));
      [assumption |].
    intros st'. unfold try_except, lift. cbn. rewrite String.eqb_refl. cbn.
    now destruct (dict_get "mac_address" interface).
Qed.

(** *** Values at the end of a path *)

(** X6: when the path is there, [_get_hostname], [_get_uptime] and
    [_get_fault_light] return the value found at its end as it is, whatever
    its type: the fault light is not coerced to a bool, nor the uptime to an
    int. *)
Theorem path_values_pass_through self st (web_summary : value)
  (d : list (string * value)) (v : value) :
  works_from self ePICWebAPI.summary web_summary (VDict d) ->
  (dict_get "Hostname" d = Some v ->
   fst (_get_hostname self web_summary st) = Ok v) /\
  (forall session, dict_get "Session" d = Some (VDict session) ->
     dict_get "Uptime" session = Some v ->
     fst (_get_uptime self web_summary st) = Ok v) /\
  (forall misc, dict_get "Misc" d = Some (VDict misc) ->
     dict_get "Locate Miner State" misc = Some v ->
     fst (_get_fault_light self web_summary st) = Ok v).
Proof.
  intros Hw. repeat split.
  - intros H. unfold _get_hostname. apply (bind_fetch_fst _ _ _ (VDict d)); [assumption |].
    intros st'. unfold try_except, lift. cbn. now rewrite H.
  - intros session H1 H2. unfold _get_uptime.
    apply (bind_fetch_fst _ _ _ (VDict d)); [assumption |].
    intros st'. unfold try_except, lift. cbn. rewrite H1. cbn. now rewrite H2.
  - intros misc H1 H2. unfold _get_fault_light.
    apply (bind_fetch_fst _ _ _ (VDict d)); [assumption |].
    intros st'. unfold try_except, lift. cbn. rewrite H1. cbn. now rewrite H2.
Qed.

(** *** The input power *)

Lemma round_half_even_nearest (q : Q) :
  (q - (1 # 2) <= inject_Z (round_half_even q) <= q + (1 # 2))%Q.
Proof.
  unfold round_half_even.
  pose proof (Qfloor_le q) as Lo. pose proof (Qlt_floor q) as Hi.
  rewrite inject_Z_plus in Hi. change (inject_Z 1) with 1%Q in Hi.
  destruct (Qcompare_spec (q - inject_Z (Qfloor q)) (1 # 2)) as [E | L | G].
  - destruct (Z.even (Qfloor q)).
    + split; lra.
    + rewrite inject_Z_plus. change (inject_Z 1) with 1%Q. split; lra.
  - split; lra.
  - rewrite inject_Z_plus. change (inject_Z 1) with 1%Q. split; lra.
Qed.

Lemma round_half_even_of_int (z : Z) : round_half_even (inject_Z z) = z.
Proof.
  unfold round_half_even. rewrite Qfloor_Z.
  assert (E : forall x : Q, (x - x ?= 1 # 2)%Q = Lt).
  { intros x. apply (proj1 (Qlt_alt _ _)). lra. }
  now rewrite E.
Qed.

(** X7: when the summary has a numeric [Input Power] under
    [Power Supply Stats], [_get_wattage] returns an int that is within one
    half of the power; a power that is an int is returned as it is. *)
Theorem wattage_is_the_nearest_int self st (web_summary power : value)
  (d stats : list (string * value)) (q : Q) :
  works_from self ePICWebAPI.summary web_summary (VDict d) ->
  dict_get "Power Supply Stats" d = Some (VDict stats) ->
  dict_get "Input Power" stats = Some power ->
  num_of power = Some q ->
  exists w : Z,
    fst (_get_wattage self web_summary st) = Ok (VInt w) /\
    (q - (1 # 2) <= inject_Z w <= q + (1 # 2))%Q /\
    (forall z, power = VInt z -> w = z).
Proof.
  intros Hw Hs Hp Hq.
  assert (R : exists w, py_round power = Ok (VInt w) /\
                        w = round_half_even q /\
                        (forall z, power = VInt z -> w = z)).
  { destruct power; cbn [num_of] in Hq; try discriminate Hq; cbn [py_round].
    - injection Hq as <-.
      eexists; split; [reflexivity | split; [| discriminate]].
      now rewrite round_half_even_of_int.
    - injection Hq as <-.
      eexists; split; [reflexivity | split; [| now intros ? [= ->]]].
      now rewrite round_half_even_of_int.
    - rewrite Hq.
      eexists; split; [reflexivity | split; [reflexivity | discriminate]]. }
  destruct R as (w & Rw & -> & Hz). exists (round_half_even q). split; [| split].
  - unfold _get_wattage. apply (bind_fetch_fst _ _ _ (VDict d)); [assumption |].
    intros st'. unfold try_except, lift. cbn -[py_round]. rewrite Hs.
    cbn -[py_round]. rewrite Hp. cbn -[py_round]. now rewrite Rw.
  - apply round_half_even_nearest.
  - assumption.
Qed.

(** *** What the measured hashrate absorbs *)

Lemma float_of_int_errors (z : Z) (e : exn) :
  float_of_int z = Raise e -> e = OverflowError.
Proof.
  unfold float_of_int.
  destruct (SpecFloat.binary_normalize FloatOps.prec FloatOps.emax z 0 false);
    intros [= <-]; reflexivity.
Qed.

Lemma as_float_errors (n : Z + float) (e : exn) :
  as_float n = Raise e -> e = OverflowError.
Proof. destruct n as [z | g]; cbn; [apply float_of_int_errors | discriminate]. Qed.

Lemma py_getitem_errors (c k : value) (e : exn) :
  py_getitem c k = Raise e -> is_parse_error e = true.
Proof.
  unfold py_getitem.
  repeat match goal with
         | |- context [match ?x with _ => _ end] => destruct x
         end; intros [= <-]; reflexivity.
Qed.

(** [+] raises [TypeError] on operands it does not take, and
    [OverflowError] on an int too large for the float it is added to. *)
Lemma py_add_errors (a b : value) (e : exn) :
  py_add a b = Raise e -> e = TypeError \/ e = OverflowError.
Proof.
  unfold py_add. intros H.
  assert (N : match number_of a, number_of b with
              | Some (inl x), Some (inl y) => Ok (VInt (x + y))
              | Some x, Some y =>
                  rbind (as_float x) (fun f =>
                  rbind (as_float y) (fun g =>
                  Ok (VFloat (PrimFloat.add f g))))
              | _, _ => Raise TypeError
              end = Raise e -> e = TypeError \/ e = OverflowError).
  { clear H.
    destruct (number_of a) as [[x | f] |], (number_of b) as [[y | g] |];
      cbn [as_float rbind]; try (intros [= <-]; now left); try discriminate.
    - destruct (float_of_int x) eqn:E; cbn [rbind]; [discriminate |].
      intros [= <-]. right. now apply (float_of_int_errors x).
    - destruct (float_of_int y) eqn:E; cbn [rbind]; [discriminate |].
      intros [= <-]. right. now apply (float_of_int_errors y). }
  destruct a, b; try exact (N H); discriminate H.
Qed.

Lemma py_iter_errors (c : value) (e : exn) :
  py_iter c = Raise e -> is_parse_error e = true.
Proof. destruct c; cbn; intros [= <-]; reflexivity. Qed.

Lemma int_truediv_million_errors (z : Z) (e : exn) :
  int_truediv z 1000000 = Raise e -> e = OverflowError.
Proof.
  unfold int_truediv. change (1000000 =? 0) with false. cbv iota.
  destruct (z =? 0); [discriminate |].
  destruct (SpecFloat.SFdiv FloatOps.prec FloatOps.emax (SF_of_Z z)
              (SF_of_Z 1000000)); intros [= <-]; reflexivity.
Qed.

(** The division by 1,000,000 raises [TypeError] on what is not a number and
    [OverflowError] on an int whose quotient is too large for a float. *)
Lemma truediv_million_errors (hashrate : value) (e : exn) :
  py_truediv hashrate (VInt 1000000) = Raise e ->
  e = TypeError \/ e = OverflowError.
Proof.
  unfold py_truediv.
  destruct hashrate as [| b | z | g | | |]; cbn [number_of];
    [intros [= <-]; now left | | | | intros [= <-]; now left ..].
  - intros H. right. exact (int_truediv_million_errors _ _ H).
  - intros H. right. exact (int_truediv_million_errors _ _ H).
  - cbn [as_float rbind]. rewrite float_of_int_million. cbn [rbind].
    unfold float_truediv.
    change (PrimFloat.eqb 1000000 PrimFloat.zero) with false. discriminate.
Qed.

Lemma to_mega_errors (hashrate : value) (e : exn) :
  to_mega hashrate = Raise e -> e = TypeError \/ e = OverflowError.
Proof.
  unfold to_mega.
  destruct (py_truediv hashrate (VInt 1000000)) eqn:E; cbn [rbind];
    [discriminate |].
  intros [= <-]. now apply (truediv_million_errors hashrate).
Qed.

Lemma to_mega_float (hashrate v : value) :
  to_mega hashrate = Ok v -> exists r, v = VFloat r.
Proof.
  unfold to_mega. destruct (py_truediv hashrate (VInt 1000000)); cbn [rbind];
    [intros [= <-]; eauto | discriminate].
Qed.

Lemma add_measured_errors (acc hb : value) (e : exn) :
  add_measured acc hb = Raise e -> is_parse_error e = true \/ e = OverflowError.
Proof.
  unfold add_measured.
  destruct (py_getitem hb (VStr "Hashrate")) as [pair | e1] eqn:E1; cbn [rbind];
    [| intros [= <-]; left; now apply (py_getitem_errors _ _ _ E1)].
  destruct (py_getitem pair (VInt 0)) as [m | e2] eqn:E2; cbn [rbind];
    [| intros [= <-]; left; now apply (py_getitem_errors _ _ _ E2)].
  intros H. destruct (py_add_errors _ _ _ H) as [-> | ->]; [now left | now right].
Qed.

Lemma for_each_errors {A B} (body : A -> B -> result A) (l : list B)
  (P : exn -> Prop) :
  (forall acc x e, body acc x = Raise e -> P e) ->
  forall acc e, for_each body l acc = Raise e -> P e.
Proof.
  intros Hb. induction l as [| x r IH]; intros acc e; cbn; [discriminate |].
  destruct (body acc x) as [acc' | e'] eqn:E; cbn [rbind].
  - apply IH.
  - intros [= <-]. now apply (Hb acc x).
Qed.

Lemma for_each_stops {A B} (body : A -> B -> result A) (l : list B) (bad : B) :
  In bad l ->
  (forall acc, exists e, body acc bad = Raise e) ->
  forall acc, exists e, for_each body l acc = Raise e.
Proof.
  intros Hin Hbad. induction l as [| x r IH]; intros acc; [destruct Hin |].
  cbn. destruct (body acc x) as [acc' | e'] eqn:E; cbn [rbind]; [| eauto].
  destruct Hin as [-> | Hin]; [| now apply IH].
  destruct (Hbad acc) as [e He]. congruence.
Qed.

(** The body of the [try] of [_get_hashrate] returns a float or [None], or
    raises an error that the [except] clause names, or [OverflowError]. *)
Lemma hashrate_body_result (s : value) :
  let body :=
    rbind (py_getitem s (VStr "HBs")) (fun hbs =>
    if negb (is_None hbs) then
      rbind (py_iter hbs) (fun boards =>
      rbind (for_each add_measured boards (VInt 0)) to_mega)
    else Ok VNone) in
  (exists v, body = Ok v /\ (v = VNone \/ exists r, v = VFloat r)) \/
  (exists e, body = Raise e /\ is_parse_error e = true) \/
  body = Raise OverflowError.
Proof.
  cbv zeta.
  destruct (py_getitem s (VStr "HBs")) as [hbs | e1] eqn:E1; cbn [rbind];
    [| right; left; exists e1; split;
       [reflexivity | now apply (py_getitem_errors _ _ _ E1)]].
  destruct (is_None hbs); cbn [negb];
    [left; exists VNone; split; [reflexivity | now left] |].
  destruct (py_iter hbs) as [boards | e2] eqn:E2; cbn [rbind];
    [| right; left; exists e2; split;
       [reflexivity | now apply (py_iter_errors _ _ E2)]].
  destruct (for_each add_measured boards (VInt 0)) as [acc | e3] eqn:E3;
    cbn [rbind].
  - destruct (to_mega acc) as [v | e4] eqn:E4.
    + left. exists v. split; [reflexivity |]. right.
      now apply (to_mega_float acc).
    + right. destruct (to_mega_errors acc e4 E4) as [-> | ->];
        [left; exists TypeError; now split | now right].
  - right.
    destruct (for_each_errors add_measured boards _ add_measured_errors _ _ E3)
      as [He | ->]; [left; exists e3; now split | now right].
Qed.

(** X10: on every payload, of whatever shape, that [_get_hashrate] works
    from, it returns a float or [None], or raises [OverflowError].  Every
    [KeyError], [IndexError] and [TypeError] of the parsing is caught and
    gives [None]; the one exception that reaches the caller is the
    [OverflowError] of an int too large for a float, in the sum or in the
    division by 1,000,000. *)
Theorem hashrate_raises_only_OverflowError self st (web_summary s : value) :
  works_from self ePICWebAPI.summary web_summary s ->
  (exists v : value,
      fst (_get_hashrate self web_summary st) = Ok v /\
      (v = VNone \/ exists r, v = VFloat r)) \/
  fst (_get_hashrate self web_summary st) = Raise OverflowError.
Proof.
  intros Hw. unfold _get_hashrate, bind.
  destruct (fetch_if_None_works_from self _ web_summary s st Hw) as [st' ->].
  destruct (is_None s); cbn [negb];
    [left; exists VNone; split; [reflexivity | now left] |].
  unfold try_except, lift, ret. cbv beta zeta.
  destruct (hashrate_body_result s) as [(v & -> & Hv) | [(e & -> & He) | ->]].
  - left. exists v. split; [reflexivity | assumption].
  - rewrite He. left. exists VNone. split; [reflexivity | now left].
  - now right.
Qed.

(** X11: the measured hashrate is all or nothing: when one board of the list
    is a dict without [Hashrate], [_get_hashrate] returns no partial sum,
    whatever the other boards report.  It returns [None], unless a board
    before that one has made the sum raise [OverflowError]. *)
Theorem hashrate_is_all_or_nothing self st (web_summary : value)
  (d bad : list (string * value)) (boards : list value) :
  works_from self ePICWebAPI.summary web_summary (VDict d) ->
  dict_get "HBs" d = Some (VList boards) ->
  In (VDict bad) boards ->
  dict_get "Hashrate" bad = None ->
  fst (_get_hashrate self web_summary st) = Ok VNone \/
  fst (_get_hashrate self web_summary st) = Raise OverflowError.
Proof.
  intros Hw Hd Hin Hbad. unfold _get_hashrate.
  destruct (for_each_stops add_measured boards (VDict bad) Hin) with (acc := VInt 0)
    as [e E].
  { intros acc. exists KeyError. unfold add_measured. cbn. now rewrite Hbad. }
  destruct (for_each_errors add_measured boards _ add_measured_errors _ _ E)
    as [He | ->]; [left | right];
    (apply (bind_fetch_fst _ _ _ (VDict d)); [assumption |]);
    intros st'; unfold try_except, lift;
    cbn -[for_each to_mega]; rewrite Hd; cbn -[for_each to_mega];
    rewrite E; cbn [rbind]; [now rewrite He | reflexivity].
Qed.

(** *** The measured hashrate of int measurements *)

(** The loop of [_get_hashrate] on boards that report ints adds them as
    ints: the sum is exact. *)
Lemma measured_loop (boards : list value) (zs : list Z) :
  Forall2 board_measures boards zs ->
  forall acc : Z,
    for_each add_measured boards (VInt acc) = Ok (VInt (fold_left Z.add zs acc)).
Proof.
  induction 1 as [| hb z boards zs (d & rest & -> & Hd) _ IH]; intros acc;
    cbn [for_each fold_left]; [reflexivity |].
  unfold add_measured at 1. rewrite (getitem_key d "Hashrate" _ Hd).
  cbn [rbind]. rewrite getitem_first. cbn [rbind py_add number_of]. apply IH.
Qed.

(** X8: when every board of the summary reports an int as its measured
    value, [_get_hashrate] adds the values exactly, as ints, and divides the
    sum once: it returns the float nearest to sum / 1,000,000, rounded to 2
    decimal places, and raises [OverflowError] when that quotient is beyond
    the largest float. *)
Theorem hashrate_sums_int_measurements self st (web_summary : value)
  (d : list (string * value)) (boards : list value) (zs : list Z) :
  works_from self ePICWebAPI.summary web_summary (VDict d) ->
  dict_get "HBs" d = Some (VList boards) ->
  Forall2 board_measures boards zs ->
  fst (_get_hashrate self web_summary st)
  = match int_truediv (fold_left Z.add zs 0) 1000000 with
    | Ok mega => Ok (VFloat (round2 mega))
    | Raise _ => Raise OverflowError
    end.
Proof.
  intros Hw Hd Hb. unfold _get_hashrate.
  apply (bind_fetch_fst _ _ _ (VDict d)); [assumption |].
  intros st'. unfold try_except, lift.
  cbn -[for_each to_mega int_truediv]. rewrite Hd.
  cbn -[for_each to_mega int_truediv].
  rewrite (measured_loop boards zs Hb 0). cbn [rbind].
  change (to_mega (VInt (fold_left Z.add zs 0)))
    with (rbind (int_truediv (fold_left Z.add zs 0) 1000000)
            (fun q => Ok (VFloat (round2 (float_ (float_ q)))))).
  destruct (int_truediv (fold_left Z.add zs 0) 1000000) as [mega | e] eqn:E;
    cbn [rbind]; [reflexivity |].
  now rewrite (int_truediv_million_errors _ _ E).
Qed.

(** *** More on the firmware version *)

Lemma split_on_absent (sep : ascii) (s : string) :
  has_char sep s = false -> split_on sep s = [s].
Proof.
  induction s as [| a r IH]; cbn; [reflexivity |].
  intros H. apply orb_false_iff in H as [Ha Hr]. rewrite Ha, (IH Hr). reflexivity.
Qed.

Lemma remove_char_absent (c : ascii) (s : string) :
  has_char c (remove_char c s) = false.
Proof.
  induction s as [| a r IH]; cbn; [reflexivity |].
  destruct (Ascii.eqb a c) eqn:E; [assumption |]. cbn. now rewrite E.
Qed.

(** C7, at the inputs where it fails: the [Software] string of the summary
    has a token at position 1 that still has a ["v"] after its leading
    version prefix is stripped (["v1.0-dev"], say).  [_get_fw_ver] removes
    every ["v"] of the token, so what it returns is not the token with only
    its leading ["v"] removed. *)
Theorem fw_ver_removes_inner_v self st (web_summary : value)
  (d : list (string * value)) (software token : string) :
  works_from self ePICWebAPI.summary web_summary (VDict d) ->
  dict_get "Software" d = Some (VStr software) ->
  nth_error (split_on " "%char software) 1 = Some token ->
  has_char "v"%char (strip_leading_v token) = true ->
  exists out : string,
    fst (_get_fw_ver self web_summary st) = Ok (VStr out) /\
    out <> strip_leading_v token.
Proof.
  intros Hw Hs Ht Hv. exists (remove_char "v"%char token). split.
  - unfold _get_fw_ver.
    apply (bind_fetch_fst _ _ _ (VDict d)); [assumption |].
    intros st'. unfold try_except, lift. cbn. rewrite Hs. cbn.
    assert (L : resolve_index (length (map VStr (split_on " "%char software))) 1
                = Some 1%nat).
    { rewrite length_map. unfold resolve_index.
      assert (1 < length (split_on " "%char software))%nat
        by (apply nth_error_Some; congruence).
      destruct (1 <? Z.of_nat (length (split_on " "%char software))) eqn:E;
        [reflexivity | apply Z.ltb_ge in E; lia]. }
    rewrite L. rewrite nth_error_map, Ht. reflexivity.
  - intros E. rewrite <- E, remove_char_absent in Hv. discriminate Hv.
Qed.

(** X12: when the [Software] string of the summary has no space,
    [_get_fw_ver] raises [IndexError]: the split leaves a single piece, and
    the piece at position 1 is read outside what the [try] catches. *)
Theorem fw_ver_without_space_raises self st (web_summary : value)
  (d : list (string * value)) (software : string) :
  works_from self ePICWebAPI.summary web_summary (VDict d) ->
  dict_get "Software" d = Some (VStr software) ->
  has_char " "%char software = false ->
  fst (_get_fw_ver self web_summary st) = Raise IndexError.
Proof.
  intros Hw Hs Hc. unfold _get_fw_ver.
  apply (bind_fetch_fst _ _ _ (VDict d)); [assumption |].
  intros st'. unfold try_except, lift. cbn -[split_on]. rewrite Hs.
  cbn -[split_on]. now rewrite (split_on_absent _ _ Hc).
Qed.

(** X13: a string that [_get_fw_ver] returns never has the letter ["v"] in
    it, whatever the payload. *)
Theorem fw_ver_has_no_v self st (web_summary : value) (out : string) :
  fst (_get_fw_ver self web_summary st) = Ok (VStr out) ->
  has_char "v"%char out = false.
Proof.
  unfold _get_fw_ver, bind.
  destruct (fetch_if_None self ePICWebAPI.summary web_summary st) as [[s | e] st'];
    [| discriminate].
  destruct (is_None s); cbn [negb]; [discriminate |].
  unfold try_except, lift, ret.
  destruct (py_getitem s (VStr "Software")) as [fw | e1]; cbn [rbind];
    [| destruct (is_KeyError e1); discriminate].
  destruct (py_split_space fw) as [tokens | e2]; cbn [rbind];
    [| destruct (is_KeyError e2); discriminate].
  destruct (py_getitem tokens (VInt 1)) as [token | e3]; cbn [rbind];
    [| destruct (is_KeyError e3); discriminate].
  destruct token; cbn; try discriminate.
  intros [= <-]. apply remove_char_absent.
Qed.

(** *** Updates of the list of boards *)

Lemma length_list_update {A} (n : nat) (f : A -> A) (l : list A) :
  length (list_update n f l) = length l.
Proof.
  revert n. induction l as [| x r IH]; intros [| n]; cbn; auto.
Qed.

Lemma list_update_twice {A} (n : nat) (f g : A -> A) (l : list A) :
  list_update n f (list_update n g l) = list_update n (fun x => f (g x)) l.
Proof.
  revert n. induction l as [| x r IH]; intros [| n]; cbn; auto. now rewrite IH.
Qed.

Lemma nth_error_list_update_same {A} (n : nat) (f : A -> A) (l : list A) :
  nth_error (list_update n f l) n = option_map f (nth_error l n).
Proof.
  revert n. induction l as [| x r IH]; intros [| n]; cbn; auto.
Qed.

Lemma nth_error_list_update_other {A} (n j : nat) (f : A -> A) (l : list A) :
  j <> n -> nth_error (list_update n f l) j = nth_error l j.
Proof.
  revert n j. induction l as [| x r IH]; intros [| n] [| j] H; cbn; auto.
  congruence.
Qed.

Lemma map_list_update {A B} (g : A -> B) (n : nat) (f : A -> A) (l : list A) :
  (forall x, g (f x) = g x) -> map g (list_update n f l) = map g l.
Proof.
  intros H. revert n. induction l as [| x r IH]; intros [| n]; cbn; auto.
  - now rewrite H.
  - now rewrite IH.
Qed.

Lemma Forall_list_update {A} (P : A -> Prop) (n : nat) (f : A -> A) (l : list A) :
  (forall x, P (f x)) -> Forall P l -> Forall P (list_update n f l).
Proof.
  intros H. revert n. induction l as [| x r IH]; intros [| n] F; cbn;
    inversion F; subst; constructor; auto.
Qed.

Lemma set_board_resolved (l : list HashBoard.t) (i : Z) (n : nat)
  (f : HashBoard.t -> HashBoard.t) :
  resolve_index (length l) i = Some n ->
  set_board l (VInt i) f = Ok (list_update n f l).
Proof. intros H. unfold set_board. cbn [index_of]. now rewrite H. Qed.

Lemma set_board_unresolved (l : list HashBoard.t) (i : Z)
  (f : HashBoard.t -> HashBoard.t) :
  resolve_index (length l) i = None -> set_board l (VInt i) f = Raise IndexError.
Proof. intros H. unfold set_board. cbn [index_of]. now rewrite H. Qed.

(** A write to the list of boards applies [f] to one board of it. *)
Lemma set_board_inv (l l' : list HashBoard.t) (k : value)
  (f : HashBoard.t -> HashBoard.t) :
  set_board l k f = Ok l' ->
  exists i n, index_of k = Some i /\ resolve_index (length l) i = Some n /\
              l' = list_update n f l.
Proof.
  unfold set_board. destruct (index_of k) as [i |]; [| discriminate].
  destruct (resolve_index (length l) i) as [n |] eqn:R; [| discriminate].
  intros [= <-]. exists i, n. repeat split. assumption.
Qed.

(** A match that returns has written all five fields of one board, or has
    found the indices different and written nothing. *)
Lemma match_board_inv (hb hr : value) (l l' : list HashBoard.t) :
  match_board hb l hr = Ok l' ->
  l' = l \/
  exists n c h t, l' = list_update n (populate c h t) l.
Proof.
  unfold match_board.
  destruct (py_getitem hr (VStr "Index")) as [hr_index | ?]; cbn [rbind]; [| discriminate].
  destruct (py_getitem hb (VStr "Index")) as [hb_index | ?]; cbn [rbind]; [| discriminate].
  destruct (py_eq hr_index hb_index); [| intros [= <-]; now left].
  destruct (py_getitem hr (VStr "Data")) as [data | ?]; cbn [rbind]; [| discriminate].
  destruct (py_len data) as [c | ?]; cbn [rbind]; [| discriminate].
  destruct (py_getitem hb (VStr "Hashrate")) as [pair | ?]; cbn [rbind]; [| discriminate].
  destruct (py_getitem pair (VInt 0)) as [hashrate | ?]; cbn [rbind]; [| discriminate].
  destruct (set_board l hr_index (HashBoard.set_expected_chips c)) as [l1 | ?] eqn:E1;
    cbn [rbind]; [| discriminate].
  apply set_board_inv in E1 as (i & n & Hi & Hn & ->).
  assert (S : forall g f,
             set_board (list_update n g l) hr_index f
             = Ok (list_update n (fun x => f (g x)) l)).
  { intros g f. unfold set_board. rewrite Hi, length_list_update, Hn.
    now rewrite list_update_twice. }
  rewrite S. cbn [rbind].
  destruct (py_truediv hashrate (VInt 1000000)) as [mega | ?]; cbn [rbind]; [| discriminate].
  rewrite S. cbn [rbind]. rewrite S. cbn [rbind].
  destruct (py_getitem hb (VStr "Temperature")) as [t | ?]; cbn [rbind]; [| discriminate].
  rewrite S. intros [= <-]. right. exists n, c, (round2 mega), t. reflexivity.
Qed.

(** A property of the list of boards that every write of a match keeps is
    kept by the two loops. *)
Lemma for_each_keeps {A B} (P : A -> Prop) (body : A -> B -> result A) (l : list B) :
  (forall acc x acc', body acc x = Ok acc' -> P acc -> P acc') ->
  forall acc acc', for_each body l acc = Ok acc' -> P acc -> P acc'.
Proof.
  intros Hb. induction l as [| x r IH]; intros acc acc'; cbn.
  - now intros [= <-].
  - destruct (body acc x) as [acc1 | e] eqn:E; cbn [rbind]; [| discriminate].
    intros H HP. apply (IH acc1 acc' H). now apply (Hb acc x).
Qed.

Lemma match_boards_keeps (P : list HashBoard.t -> Prop) :
  (forall l n c h t, P l -> P (list_update n (populate c h t) l)) ->
  forall (web_hashrate : value) (boards : list value) (l l' : list HashBoard.t),
    for_each (match_boards web_hashrate) boards l = Ok l' -> P l -> P l'.
Proof.
  intros Hp web_hashrate boards.
  apply for_each_keeps. intros acc hb acc'. unfold match_boards.
  destruct (py_iter web_hashrate) as [hrs | e]; cbn [rbind]; [| discriminate].
  apply for_each_keeps. intros acc1 hr acc2 H HP.
  destruct (match_board_inv hb hr acc1 acc2 H) as [-> | (n & c & h & t & ->)];
    [assumption | now apply Hp].
Qed.

(** A list that [_get_hashboards] returns is the allocated one, or what the
    loops made of it. *)
Lemma hashboards_result_inv self st (web_summary web_hashrate : value)
  (l : list HashBoard.t) :
  fst (_get_hashboards self web_summary web_hashrate st) = Ok l ->
  l = allocated self \/
  exists payload boards,
    for_each (match_boards payload) boards (allocated self) = Ok l.
Proof.
  unfold _get_hashboards, bind. fold (allocated self).
  destruct (fetch_if_None self ePICWebAPI.summary web_summary st) as [[s | e] st'];
    [| discriminate].
  match goal with
  | |- context [(if negb (is_None web_hashrate) then ?a else ?b) st'] =>
      destruct ((if negb (is_None web_hashrate) then a else b) st')
        as [[payload | e] st'']
  end; [| discriminate].
  unfold lift, ret.
  destruct (py_get s "HBs") as [hbs | e]; [| discriminate].
  destruct (is_None hbs); cbn [negb fst]; [intros [= <-]; now left |].
  destruct (py_getitem s (VStr "HBs")) as [hbs' | e]; cbn [rbind]; [| discriminate].
  destruct (py_iter hbs') as [boards | e]; cbn [rbind]; [| discriminate].
  intros H. right. eauto.
Qed.

(** X14: a list that [_get_hashboards] returns has one board per expected
    hashboard, and the board at position i has slot i: no payload makes the
    list longer or shorter or moves a board. *)
Theorem hashboards_keeps_the_slots self st (web_summary web_hashrate : value)
  (l : list HashBoard.t) :
  fst (_get_hashboards self web_summary web_hashrate st) = Ok l ->
  length l = Z.to_nat (expected_hashboards self) /\
  map HashBoard.slot l = range (expected_hashboards self).
Proof.
  intros H.
  assert (A : map HashBoard.slot (allocated self) = range (expected_hashboards self)).
  { unfold allocated. rewrite map_map. cbn. apply map_id. }
  assert (S : map HashBoard.slot l = range (expected_hashboards self)).
  { destruct (hashboards_result_inv self st _ _ l H) as [-> | (payload & boards & E)];
      [assumption |].
    apply (match_boards_keeps
             (fun l => map HashBoard.slot l = range (expected_hashboards self)))
      with (3 := A) in E; [assumption |].
    intros l0 n c h t <-. now apply map_list_update. }
  split; [| assumption].
  rewrite <- (length_map HashBoard.slot), S. unfold range.
  now rewrite length_map, length_seq.
Qed.

(** X15: in a list that [_get_hashboards] returns, every board is either
    exactly as it was allocated, flagged missing, or fully written: not
    missing, with a hashrate, and with a chip count equal to its expected
    chips.  No board is left half written. *)
Theorem hashboards_boards_allocated_or_populated self st
  (web_summary web_hashrate : value) (l : list HashBoard.t) :
  fst (_get_hashboards self web_summary web_hashrate st) = Ok l ->
  Forall (fun b => b = HashBoard.new (HashBoard.slot b) (expected_chips self) \/
                   populated b) l.
Proof.
  intros H.
  assert (A : Forall (fun b => b = HashBoard.new (HashBoard.slot b) (expected_chips self)
                               \/ populated b) (allocated self)).
  { unfold allocated. apply Forall_forall. intros b Hb.
    apply in_map_iff in Hb as (i & <- & _). now left. }
  destruct (hashboards_result_inv self st _ _ l H) as [-> | (payload & boards & E)];
    [assumption |].
  apply (match_boards_keeps _) with (3 := A) in E; [assumption |].
  intros l0 n c h t F. apply Forall_list_update; [| assumption].
  intros b. right. repeat split. discriminate.
Qed.

(** *** One reported board, at any index *)

Lemma length_allocated self :
  length (allocated self) = Z.to_nat (expected_hashboards self).
Proof. unfold allocated, range. now rewrite !length_map, length_seq. Qed.

Lemma nth_error_allocated self (k : Z) :
  0 <= k < expected_hashboards self ->
  nth_error (allocated self) (Z.to_nat k)
  = Some (HashBoard.new k (expected_chips self)).
Proof.
  intros H. unfold allocated, range. rewrite !nth_error_map, nth_error_seq.
  replace (Z.to_nat k <? Z.to_nat (expected_hashboards self))%nat with true
    by (symmetry; apply Nat.ltb_lt; lia).
  cbn. now rewrite Z2Nat.id by lia.
Qed.

(** The run of [_get_hashboards] on payloads that report one board, with the
    same int index in both, and a device that answers the [hashrate] request
    with the supplied payload or fails it with [APIError]: the index
    designates no board and the first write raises [IndexError], or the
    board that the index designates is written, once the division of the
    measured value by 1,000,000 has returned. *)
Lemma hashboards_one_board_run self st (web_summary web_hashrate : value)
  (d hb hr : list (string * value)) (measured temperature : value)
  (rest data : list value) (i : Z) :
  works_from self ePICWebAPI.summary web_summary (VDict d) ->
  dict_get "HBs" d = Some (VList [VDict hb]) ->
  dict_get "Index" hb = Some (VInt i) ->
  dict_get "Hashrate" hb = Some (VList (measured :: rest)) ->
  dict_get "Temperature" hb = Some temperature ->
  web_hashrate = VList [VDict hr] ->
  dict_get "Index" hr = Some (VInt i) ->
  dict_get "Data" hr = Some (VList data) ->
  web self ePICWebAPI.hashrate = Ok web_hashrate \/
  web self ePICWebAPI.hashrate = Raise APIError ->
  fst (_get_hashboards self web_summary web_hashrate st)
  = match resolve_index (length (allocated self)) i with
    | Some n =>
        rbind (py_truediv measured (VInt 1000000)) (fun mega =>
        Ok (list_update n
              (populate (Z.of_nat (length data)) (round2 mega) temperature)
              (allocated self)))
    | None => Raise IndexError
    end.
Proof.
  intros Hw Hd Hi Hr Ht -> Hri Hrd Hweb.
  unfold _get_hashboards. apply (bind_fetch_fst _ _ _ (VDict d)); [assumption |].
  intros st'. unfold bind. cbn [is_None negb].
  assert (E : exists st'',
             try_except (call self ePICWebAPI.hashrate) is_APIError
               (ret (VList [VDict hr])) st' = (Ok (VList [VDict hr]), st'')).
  { unfold try_except, call, ret. destruct Hweb as [-> | ->]; cbn; eauto. }
  destruct E as [st'' ->]. fold (allocated self).
  unfold lift. cbn -[match_board allocated]. rewrite Hd. cbn -[match_board allocated].
  unfold match_board.
  rewrite (getitem_key hr "Index" _ Hri), (getitem_key hb "Index" _ Hi).
  cbn [rbind].
  replace (py_eq (VInt i) (VInt i)) with true
    by (symmetry; apply Z.eqb_refl).
  rewrite (getitem_key hr "Data" _ Hrd), (getitem_key hb "Hashrate" _ Hr).
  cbn [rbind py_len]. rewrite getitem_first. cbn [rbind].
  rewrite (getitem_key hb "Temperature" _ Ht).
  destruct (resolve_index (length (allocated self)) i) as [n |] eqn:R.
  - rewrite (set_board_resolved _ i n _ R). cbn [rbind].
    assert (S : forall g f,
               set_board (list_update n g (allocated self)) (VInt i) f
               = Ok (list_update n (fun x => f (g x)) (allocated self))).
    { intros g f. rewrite (set_board_resolved _ i n);
        [now rewrite list_update_twice | now rewrite length_list_update]. }
    rewrite S. cbn [rbind].
    destruct (py_truediv measured (VInt 1000000)) as [mega | e]; cbn [rbind];
      [| reflexivity].
    repeat (rewrite S; cbn [rbind]). reflexivity.
  - now rewrite (set_board_unresolved _ i _ R).
Qed.

(** X16: payloads that report one board, with the int index i in both, on a
    device that answers the [hashrate] request with the supplied payload or
    fails it with [APIError].  When i is a position of the list of n expected
    boards, or a negative index down to -n, which counts from the end of the
    list, [_get_hashboards] writes the board at slot i, or n + i: it is not
    missing, it has the chip count of the per-chip data, the float that the
    division of the measured value by 1,000,000 returns, rounded to 2
    decimal places, and the temperature of the summary; every other board
    is as it was allocated. *)
Theorem hashboards_board_at_index self st (web_summary web_hashrate : value)
  (d hb hr : list (string * value)) (measured temperature : value)
  (rest data : list value) (mega : float) (i k : Z) :
  works_from self ePICWebAPI.summary web_summary (VDict d) ->
  dict_get "HBs" d = Some (VList [VDict hb]) ->
  dict_get "Index" hb = Some (VInt i) ->
  dict_get "Hashrate" hb = Some (VList (measured :: rest)) ->
  py_truediv measured (VInt 1000000) = Ok mega ->
  dict_get "Temperature" hb = Some temperature ->
  web_hashrate = VList [VDict hr] ->
  dict_get "Index" hr = Some (VInt i) ->
  dict_get "Data" hr = Some (VList data) ->
  web self ePICWebAPI.hashrate = Ok web_hashrate \/
  web self ePICWebAPI.hashrate = Raise APIError ->
  (0 <= i < expected_hashboards self /\ k = i) \/
  (- expected_hashboards self <= i < 0 /\ k = expected_hashboards self + i) ->
  exists l : list HashBoard.t,
    fst (_get_hashboards self web_summary web_hashrate st) = Ok l /\
    nth_error l (Z.to_nat k)
    = Some {| HashBoard.slot := k;
              HashBoard.hashrate := Some (round2 mega);
              HashBoard.temp := temperature;
              HashBoard.chips := Some (Z.of_nat (length data));
              HashBoard.expected_chips := Z.of_nat (length data);
              HashBoard.missing := false |} /\
    (forall j, j <> Z.to_nat k -> nth_error l j = nth_error (allocated self) j).
Proof.
  intros Hw Hd Hi Hr Hq Ht Hh Hri Hrd Hweb Hk.
  rewrite (hashboards_one_board_run self st web_summary web_hashrate d hb hr
             measured temperature rest data i Hw Hd Hi Hr Ht Hh Hri Hrd Hweb).
  assert (R : resolve_index (length (allocated self)) i = Some (Z.to_nat k) /\
              0 <= k < expected_hashboards self).
  { rewrite length_allocated. unfold resolve_index.
    destruct Hk as [[H ->] | [H ->]].
    - replace ((0 <=? i) && (i <? Z.of_nat (Z.to_nat (expected_hashboards self))))
        with true by (symmetry; apply andb_true_iff; split;
                      [apply Z.leb_le | apply Z.ltb_lt]; lia).
      now split.
    - replace ((0 <=? i) && (i <? Z.of_nat (Z.to_nat (expected_hashboards self))))
        with false by (symmetry; apply andb_false_iff; left; apply Z.leb_gt; lia).
      replace ((i <? 0) && (- Z.of_nat (Z.to_nat (expected_hashboards self)) <=? i))
        with true by (symmetry; apply andb_true_iff; split;
                      [apply Z.ltb_lt | apply Z.leb_le]; lia).
      split; [| lia]. do 2 f_equal. lia. }
  destruct R as [-> Hr']. rewrite Hq. cbn [rbind]. eexists. split; [reflexivity | split].
  - rewrite nth_error_list_update_same, (nth_error_allocated self k Hr'). reflexivity.
  - intros j Hj. now apply nth_error_list_update_other.
Qed.

(** X17: under the same conditions, an index i that is neither a position
    of the list of n expected boards nor a negative index down to -n makes
    [_get_hashboards] raise [IndexError]. *)
Theorem hashboards_index_out_of_range self st (web_summary web_hashrate : value)
  (d hb hr : list (string * value)) (measured temperature : value)
  (rest data : list value) (q : Q) (i : Z) :
  works_from self ePICWebAPI.summary web_summary (VDict d) ->
  dict_get "HBs" d = Some (VList [VDict hb]) ->
  dict_get "Index" hb = Some (VInt i) ->
  dict_get "Hashrate" hb = Some (VList (measured :: rest)) ->
  num_of measured = Some q ->
  dict_get "Temperature" hb = Some temperature ->
  web_hashrate = VList [VDict hr] ->
  dict_get "Index" hr = Some (VInt i) ->
  dict_get "Data" hr = Some (VList data) ->
  web self ePICWebAPI.hashrate = Ok web_hashrate \/
  web self ePICWebAPI.hashrate = Raise APIError ->
  expected_hashboards self <= i \/ i < - expected_hashboards self ->
  fst (_get_hashboards self web_summary web_hashrate st) = Raise IndexError.
Proof.
  intros Hw Hd Hi Hr Hq Ht Hh Hri Hrd Hweb Hk.
  rewrite (hashboards_one_board_run self st web_summary web_hashrate d hb hr
             measured temperature rest data i Hw Hd Hi Hr Ht Hh Hri Hrd Hweb).
  assert (R : resolve_index (length (allocated self)) i = None).
  { rewrite length_allocated. unfold resolve_index.
    replace ((0 <=? i) && (i <? Z.of_nat (Z.to_nat (expected_hashboards self))))
      with false
      by (symmetry; apply andb_false_iff;
          destruct (Z.leb_spec 0 i); [right; apply Z.ltb_ge; lia | now left]).
    replace ((i <? 0) && (- Z.of_nat (Z.to_nat (expected_hashboards self)) <=? i))
      with false
      by (symmetry; apply andb_false_iff;
          destruct (Z.ltb_spec i 0); [right; apply Z.leb_gt; lia | now left]).
    reflexivity. }
  now rewrite R.
Qed.

(** *** No board, and no per-chip payload *)

(** X18: when the summary reports no board (no [HBs] key, [HBs] of [None],
    or an empty list) and no per-chip payload is supplied, [_get_hashboards]
    returns the allocated list, one board per expected hashboard, each
    flagged missing, and requests nothing for the per-chip data. *)
Theorem hashboards_without_boards self st (d : list (string * value)) :
  dict_get "HBs" d = None \/ dict_get "HBs" d = Some VNone \/
  dict_get "HBs" d = Some (VList []) ->
  _get_hashboards self (VDict d) VNone st = (Ok (allocated self), st) /\
  Forall (fun b => HashBoard.missing b = true) (allocated self).
Proof.
  intros H. split.
  - unfold _get_hashboards, bind, lift, ret. fold (allocated self).
    cbn -[allocated]. destruct H as [-> | [-> | ->]]; reflexivity.
  - apply Forall_forall. intros b Hb. unfold allocated in Hb.
    apply in_map_iff in Hb as (i & <- & _). reflexivity.
Qed.

(** X19: called with a summary that reports at least one board and without
    the per-chip payload, [_get_hashboards] does not fetch that payload: it
    issues no request and raises [TypeError]. *)
Theorem hashboards_never_fetches_missing_payload self st
  (d : list (string * value)) (board : value) (boards : list value) :
  dict_get "HBs" d = Some (VList (board :: boards)) ->
  _get_hashboards self (VDict d) VNone st = (Raise TypeError, st).
Proof.
  intros H. unfold _get_hashboards, bind, lift, ret.
  cbn -[range]. rewrite H. reflexivity.
Qed.

(** *** Exceptions that [get_config] and the expected hashrate let through *)

(** X20: when the summary request of [get_config] raises an exception that
    is neither an [APIError] nor a [LookupError], [get_config] raises it to
    the caller and leaves [self.config] as it was. *)
Theorem get_config_propagates_other_errors self st (e : exn) :
  web self ePICWebAPI.summary = Raise e ->
  is_APIError e = false ->
  is_LookupError e = false ->
  get_config self st = (Raise e, requested ePICWebAPI.summary st).
Proof.
  intros H Ha Hl. unfold get_config, bind, try_except, call.
  now rewrite H, Ha, Hl.
Qed.

(** X21: on a payload that is neither [None] nor a dict (a list, a string,
    a number), [_get_expected_hashrate] raises [AttributeError], since what
    its [try] catches does not cover the failing [web_summary.get]; on the
    same payload [_get_hashrate], which indexes the payload instead,
    returns [None]. *)
Theorem expected_hashrate_needs_a_dict self st (web_summary s : value) :
  works_from self ePICWebAPI.summary web_summary s ->
  is_None s = false ->
  (forall d, s <> VDict d) ->
  fst (_get_expected_hashrate self web_summary st) = Raise AttributeError /\
  fst (_get_hashrate self web_summary st) = Ok VNone.
Proof.
  intros Hw Hn Hd. split.
  - unfold _get_expected_hashrate. apply (bind_fetch_fst _ _ _ s); [assumption |].
    intros st'. rewrite Hn. unfold try_except, lift.
    destruct s; try discriminate Hn; try reflexivity. now destruct (Hd d).
  - unfold _get_hashrate. apply (bind_fetch_fst _ _ _ s); [assumption |].
    intros st'. rewrite Hn. unfold try_except, lift.
    destruct s; try discriminate Hn; try reflexivity. now destruct (Hd d).
Qed.

End Properties.

(** ** The properties at concrete inputs *)

(** [expected_hashrate_divides_by_zero] on a summary whose only board
    measures 95123456 at an ideal percentage of 5e-324, the smallest
    positive float. *)
Lemma expected_hashrate_divides_by_zero_witness :
  fst (_get_expected_hashrate (device (Raise APIError))
         (VDict [("HBs", VList [VDict [("Hashrate",
                                        VList [VInt 95123456;
                                               VFloat 0x1p-1074])]])])
         fresh)
  = Raise ZeroDivisionError.
Proof.
  apply (expected_hashrate_divides_by_zero (device (Raise APIError)) fresh
           (VDict [("HBs", VList [VDict [("Hashrate",
                                          VList [VInt 95123456;
                                                 VFloat 0x1p-1074])]])])
           [("HBs", VList [VDict [("Hashrate",
                                   VList [VInt 95123456; VFloat 0x1p-1074])]])]
           [("Hashrate", VList [VInt 95123456; VFloat 0x1p-1074])]
           [] (VInt 95123456) (inl 95123456) 95123456%float 0x1p-1074%float).
  - apply supplied. reflexivity.
  - reflexivity.
  - reflexivity.
  - reflexivity.
  - vm_compute. reflexivity.
  - vm_compute. reflexivity.
  - vm_compute. reflexivity.
Defined.

(** [hashboards_refetch_overrides_supplied] on an adapter that expects 3
    boards, with the supplied payloads [summary_board1] and [hashrate_board1],
    which report board 1 alone, and a device that answers the [hashrate]
    request with an empty list: slot 1 is flagged missing like slots 0 and
    2. *)
Lemma hashboards_refetch_overrides_supplied_witness :
  fst (_get_hashboards (device (Ok (VList []))) summary_board1 hashrate_board1 fresh)
  = Ok [HashBoard.new 0 100; HashBoard.new 1 100; HashBoard.new 2 100].
Proof.
  apply (hashboards_refetch_overrides_supplied (device (Ok (VList []))) fresh
           hashrate_board1
           [("Software", VStr "PowerPlay v1.0-dev");
            ("HBs", VList [VDict [("Index", VInt 1);
                                  ("Hashrate", VList [VInt 95123456; VInt 0]);
                                  ("Temperature", VFloat 61.5)]]);
            ("Fans Rpm", VDict [("Fans Speed 1", VInt 3000);
                                ("Fans Speed 2", VStr "n/a")])]
           [VDict [("Index", VInt 1);
                   ("Hashrate", VList [VInt 95123456; VInt 0]);
                   ("Temperature", VFloat 61.5)]]);
    reflexivity.
Defined.

(** [hashboards_fetches_supplied_payload] on the same payloads, with a device
    that answers the request with the payload that was supplied. *)
Lemma hashboards_fetches_supplied_payload_witness :
  calls (snd (_get_hashboards (device (Ok hashrate_board1)) summary_board1
                hashrate_board1 fresh))
  = [ePICWebAPI.hashrate].
Proof.
  apply (hashboards_fetches_supplied_payload (device (Ok hashrate_board1)) fresh
           summary_board1 hashrate_board1); reflexivity.
Defined.

(** [actions_raise_on_transport_failure] on a device whose transport fails
    every call with [APIError]. *)
Lemma actions_raise_on_transport_failure_witness :
  fst (restart_backend (device (Raise APIError)) fresh) = Raise APIError /\
  fst (stop_mining (device (Raise APIError)) fresh) = Raise APIError /\
  fst (resume_mining (device (Raise APIError)) fresh) = Raise APIError /\
  fst (reboot (device (Raise APIError)) fresh) = Raise APIError.
Proof.
  apply (actions_raise_on_transport_failure (device (Raise APIError)) fresh APIError).
  intros c. reflexivity.
Defined.

(** [get_config_raises_on_translation_failure] on a device that answers the
    fetch with an empty dict, which [MinerConfig.from_epic] of
    [sample_collaborators] cannot read. *)
Lemma get_config_raises_on_translation_failure_witness :
  get_config (device (Ok (VDict []))) fresh
  = (Raise KeyError, {| calls := [ePICWebAPI.summary]; config := None |}).
Proof.
  apply (get_config_raises_on_translation_failure (device (Ok (VDict []))) fresh
           (VDict []) KeyError); reflexivity.
Defined.

(** [fans_one_per_entry] on [summary_board1]: the second of its two fans has
    the speed ["n/a"], which [Fan(speed)] of [sample_collaborators] rejects. *)
Lemma fans_one_per_entry_witness :
  exists fans : list Fan,
    fst (_get_fans (device (Raise APIError)) summary_board1 fresh) = Ok fans /\
    fans = map fan_of [("Fans Speed 1", VInt 3000); ("Fans Speed 2", VStr "n/a")] /\
    length fans = 2%nat.
Proof.
  apply (fans_one_per_entry (device (Raise APIError)) fresh summary_board1
           [("Software", VStr "PowerPlay v1.0-dev");
            ("HBs", VList [VDict [("Index", VInt 1);
                                  ("Hashrate", VList [VInt 95123456; VInt 0]);
                                  ("Temperature", VFloat 61.5)]]);
            ("Fans Rpm", VDict [("Fans Speed 1", VInt 3000);
                                ("Fans Speed 2", VStr "n/a")])]
           [("Fans Speed 1", VInt 3000); ("Fans Speed 2", VStr "n/a")]).
  - apply supplied. reflexivity.
  - reflexivity.
  - reflexivity.
  - intros x e. destruct x; cbn; intros E; try discriminate E;
      injection E as <-; reflexivity.
Defined.

(** [fw_ver_removes_inner_v] on [summary_board1], whose [Software] string
    is ["PowerPlay v1.0-dev"]: the token at position 1 is ["v1.0-dev"],
    without its leading ["v"] that is ["1.0-dev"], and what [_get_fw_ver]
    returns is another string. *)
Lemma fw_ver_removes_inner_v_witness :
  exists out : string,
    fst (_get_fw_ver (device (Raise APIError)) summary_board1 fresh)
    = Ok (VStr out) /\
    out <> strip_leading_v "v1.0-dev".
Proof.
  apply (fw_ver_removes_inner_v (device (Raise APIError)) fresh summary_board1
           [("Software", VStr "PowerPlay v1.0-dev");
            ("HBs", VList [VDict [("Index", VInt 1);
                                  ("Hashrate", VList [VInt 95123456; VInt 0]);
                                  ("Temperature", VFloat 61.5)]]);
            ("Fans Rpm", VDict [("Fans Speed 1", VInt 3000);
                                ("Fans Speed 2", VStr "n/a")])]
           "PowerPlay v1.0-dev" "v1.0-dev").
  - apply supplied. reflexivity.
  - reflexivity.
  - reflexivity.
  - reflexivity.
Defined.

(** C9: the claim fails for the fault light: with no summary supplied and a
    transport that fails the fetch, and also with a summary that lacks the
    [Misc] key, [_get_fault_light] returns [False], not [None]. *)
Lemma fault_light_defaults_to_False :
  fst (_get_fault_light (device (Raise APIError)) VNone fresh) = Ok (VBool false) /\
  fst (_get_fault_light (device (Raise APIError)) VNone fresh) <> Ok VNone /\
  py_getitem (VDict []) (VStr "Misc") = Raise KeyError /\
  fst (_get_fault_light (device (Raise APIError)) (VDict []) fresh) = Ok (VBool false) /\
  fst (_get_fault_light (device (Raise APIError)) (VDict []) fresh) <> Ok VNone.
Proof. repeat split; cbn; discriminate. Qed.

(** [missing_path_results] with no summary supplied on a device whose
    transport fails the fetch. *)
Lemma missing_path_results_witness :
  fst (_get_uptime (device (Raise APIError)) VNone fresh) = Ok VNone /\
  fst (_get_wattage (device (Raise APIError)) VNone fresh) = Ok VNone /\
  fst (_get_fault_light (device (Raise APIError)) VNone fresh) = Ok (VBool false) /\
  fst (_is_mining (device (Raise APIError)) fresh) = Ok VNone.
Proof.
  destruct (missing_path_results (device (Raise APIError)) fresh VNone VNone
              (unavailable (device (Raise APIError)) ePICWebAPI.summary eq_refl))
    as (U & W & F & I).
  exact (conj (U (or_introl eq_refl))
           (conj (W (or_introl eq_refl)) (conj (F (or_introl eq_refl)) I))).
Defined.

(** ** The primitives and the extractors on small inputs *)

Example split_keeps_empty_pieces :
  split_on " "%char "a  b " = ["a"; ""; "b"; ""].
Proof. reflexivity. Qed.

Example split_without_separator : split_on " "%char "PowerPlay" = ["PowerPlay"].
Proof. reflexivity. Qed.

(** [round(x, 2)] rounds the float, not the decimal it was written as: 0.005
    is a float above 5/1000 and goes up, 2.675 is one below 2675/1000 and
    goes down, 0.125 is exact and goes to the even neighbour. *)
Example round2_rounds_the_float :
  round2 0x1.47ae147ae147bp-8 = 0x1.47ae147ae147bp-7%float /\
  round2 0x1.5666666666666p+1 = 0x1.55c28f5c28f5cp+1%float /\
  round2 0.125 = 0x1.eb851eb851eb8p-4%float /\
  round2 infinity = infinity.
Proof. vm_compute. repeat split. Qed.

(** A division: of two ints, by zero, and beyond the largest float. *)
Example truediv_of_ints :
  py_truediv (VInt 5000) (VInt 1000000) = Ok 0x1.47ae147ae147bp-8%float /\
  py_truediv (VInt 1) (VInt 0) = Raise ZeroDivisionError /\
  py_truediv (VFloat 1) (VFloat neg_zero) = Raise ZeroDivisionError /\
  py_truediv (VInt (10 ^ 400)) (VInt 1000000) = Raise OverflowError /\
  py_add (VFloat 1.5) (VInt (10 ^ 400)) = Raise OverflowError.
Proof. vm_compute. repeat split. Qed.

(** The expected hashrate of [summary_board1], whose board has an ideal
    percentage of 0, and the measured hashrate of a board that reports
    5000. *)
Example hashrates_of_small_summaries :
  fst (_get_expected_hashrate (device (Raise APIError)) summary_board1 fresh)
  = Ok (VFloat 0x1.7c7ae147ae148p+6) /\
  fst (_get_hashrate (device (Raise APIError))
         (VDict [("HBs", VList [VDict [("Hashrate", VList [VInt 5000; VInt 0])]])])
         fresh)
  = Ok (VFloat 0x1.47ae147ae147bp-7) /\
  fst (_get_hashrate (device (Raise APIError))
         (VDict [("HBs", VList [VDict [("Hashrate", VList [VInt (10 ^ 400)])]])])
         fresh)
  = Raise OverflowError.
Proof. vm_compute. repeat split. Qed.

Example int_equals_float : py_eq (VInt 1) (VFloat 1) = true.
Proof. vm_compute. reflexivity. Qed.

Example negative_index_counts_from_the_end :
  py_getitem (VList [VInt 7; VInt 8]) (VInt (-1)) = Ok (VInt 8) /\
  py_getitem (VList [VInt 7; VInt 8]) (VInt 2) = Raise IndexError.
Proof. split; reflexivity. Qed.

(** A device that answers the [hashrate] request with the payload that was
    supplied: board 1 is populated, and the request is on record. *)
Example hashboards_of_board1 :
  _get_hashboards (device (Ok hashrate_board1)) summary_board1 hashrate_board1 fresh
  = (Ok [HashBoard.new 0 100;
         {| HashBoard.slot := 1;
            HashBoard.hashrate := Some 0x1.7c7ae147ae148p+6%float;
            HashBoard.temp := VFloat 61.5;
            HashBoard.chips := Some 3;
            HashBoard.expected_chips := 3;
            HashBoard.missing := false |};
         HashBoard.new 2 100],
     {| calls := [ePICWebAPI.hashrate]; config := None |}).
Proof. vm_compute. reflexivity. Qed.

Example fans_of_summary_board1 :
  fst (_get_fans (device (Raise APIError)) summary_board1 fresh)
  = Ok [Some 3000; None].
Proof. reflexivity. Qed.

Example restart_backend_reads_the_flag :
  fst (restart_backend (device (Ok (VDict [("success", VBool true)]))) fresh)
  = Ok (VBool true) /\
  fst (restart_backend (device (Ok (VDict [("result", VBool true)]))) fresh)
  = Ok (VBool false) /\
  fst (restart_backend (device (Ok VNone)) fresh) = Ok (VBool false).
Proof. repeat split. Qed.

(** ** The further properties at concrete inputs *)

Lemma errors_wraps_the_last_error_witness :
  (dict_get "Status" summary_running = None ->
   _get_errors (device (Raise APIError)) (VDict summary_running) fresh
   = (Ok [], fresh)) /\
  (forall status,
      dict_get "Status" summary_running = Some (VDict status) ->
      _get_errors (device (Raise APIError)) (VDict summary_running) fresh
      = (Ok match dict_get "Last Error" status with
            | Some error => if is_None error then [] else [X19Error_str error]
            | None => []
            end, fresh)).
Proof.
  apply (errors_wraps_the_last_error (device (Raise APIError)) fresh summary_running).
  discriminate.
Defined.

Lemma mac_of_first_interface_only_witness :
  fst (_get_mac (device (Raise APIError)) (VDict network_two_interfaces) fresh)
  = Ok VNone.
Proof.
  exact (proj2
           (mac_of_first_interface_only (device (Raise APIError)) fresh
              (VDict network_two_interfaces) network_two_interfaces
              (supplied _ _ (VDict network_two_interfaces) eq_refl))
           "eth0" [("dhcp", VBool true)]
           [("wlan0", VDict [("mac_address", VStr "aa:bb:cc:dd:ee:ff")])]
           eq_refl).
Defined.

Lemma path_values_pass_through_witness :
  fst (_get_fault_light (device (Raise APIError)) (VDict summary_running) fresh)
  = Ok (VBool true).
Proof.
  exact (proj2 (proj2
           (path_values_pass_through (device (Raise APIError)) fresh
              (VDict summary_running) summary_running (VBool true)
              (supplied _ _ (VDict summary_running) eq_refl)))
           [("Locate Miner State", VBool true)] eq_refl eq_refl).
Defined.

(** An input power of 3250.5 gives 3250, the even neighbour. *)
Lemma wattage_is_the_nearest_int_witness :
  exists w : Z,
    fst (_get_wattage (device (Raise APIError)) (VDict summary_running) fresh)
    = Ok (VInt w) /\
    ((6501 # 2) - (1 # 2) <= inject_Z w <= (6501 # 2) + (1 # 2))%Q /\
    (forall z, VFloat 3250.5 = VInt z -> w = z).
Proof.
  apply (wattage_is_the_nearest_int (device (Raise APIError)) fresh
           (VDict summary_running) (VFloat 3250.5) summary_running
           [("Input Power", VFloat 3250.5)] (6501 # 2));
    [apply supplied; reflexivity | reflexivity | reflexivity
    | vm_compute; reflexivity].
Defined.

(** Two boards, one that measures 95123456 at 98.5 percent and one that
    measures 500000.5 at 0 percent: the result is 97.07. *)
Lemma expected_hashrate_follows_the_formula_witness :
  fst (_get_expected_hashrate (device (Raise APIError))
         (VDict [("HBs", VList [VDict [("Hashrate",
                                        VList [VInt 95123456; VFloat 98.5])];
                                VDict [("Hashrate",
                                        VList [VFloat 500000.5; VInt 0])]])])
         fresh)
  = Ok (VFloat 0x1.8447ae147ae14p+6).
Proof.
  apply (expected_hashrate_follows_the_formula (device (Raise APIError)) fresh
           (VDict [("HBs", VList [VDict [("Hashrate",
                                          VList [VInt 95123456; VFloat 98.5])];
                                  VDict [("Hashrate",
                                          VList [VFloat 500000.5; VInt 0])]])])
           [("HBs", VList [VDict [("Hashrate",
                                   VList [VInt 95123456; VFloat 98.5])];
                           VDict [("Hashrate",
                                   VList [VFloat 500000.5; VInt 0])]])]
           [VDict [("Hashrate", VList [VInt 95123456; VFloat 98.5])];
            VDict [("Hashrate", VList [VFloat 500000.5; VInt 0])]]
           [(95123456, 98.5); (500000.5, 0)]%float).
  - apply supplied. reflexivity.
  - reflexivity.
  - constructor; [| constructor; [| constructor]].
    + exists [("Hashrate", VList [VInt 95123456; VFloat 98.5])],
        (VInt 95123456), (VFloat 98.5), (inl 95123456).
      repeat split; try reflexivity. now left.
    + exists [("Hashrate", VList [VFloat 500000.5; VInt 0])],
        (VFloat 500000.5), (VInt 0), (inr 500000.5%float).
      repeat split; try reflexivity. right. now split.
  - constructor; [| constructor; [| constructor]]; vm_compute; reflexivity.
Defined.

(** Two boards that measure 95123456 and 500000: the result is 95.62. *)
Lemma hashrate_sums_int_measurements_witness :
  fst (_get_hashrate (device (Raise APIError))
         (VDict [("HBs", VList [VDict [("Hashrate", VList [VInt 95123456; VInt 100])];
                                VDict [("Hashrate", VList [VInt 500000; VInt 0])]])])
         fresh)
  = Ok (VFloat 0x1.7e7ae147ae148p+6).
Proof.
  apply (hashrate_sums_int_measurements (device (Raise APIError)) fresh
           (VDict [("HBs", VList [VDict [("Hashrate", VList [VInt 95123456; VInt 100])];
                                  VDict [("Hashrate", VList [VInt 500000; VInt 0])]])])
           [("HBs", VList [VDict [("Hashrate", VList [VInt 95123456; VInt 100])];
                           VDict [("Hashrate", VList [VInt 500000; VInt 0])]])]
           [VDict [("Hashrate", VList [VInt 95123456; VInt 100])];
            VDict [("Hashrate", VList [VInt 500000; VInt 0])]]
           [95123456; 500000]).
  - apply supplied. reflexivity.
  - reflexivity.
  - constructor; [| constructor; [| constructor]].
    + exists [("Hashrate", VList [VInt 95123456; VInt 100])], [VInt 100].
      split; reflexivity.
    + exists [("Hashrate", VList [VInt 500000; VInt 0])], [VInt 0].
      split; reflexivity.
Defined.

(** A payload of the wrong shape altogether: a list of strings. *)
Lemma hashrate_raises_only_OverflowError_witness :
  (exists v : value,
      fst (_get_hashrate (device (Raise APIError)) (VList [VStr "HBs"]) fresh)
      = Ok v /\
      (v = VNone \/ exists r, v = VFloat r)) \/
  fst (_get_hashrate (device (Raise APIError)) (VList [VStr "HBs"]) fresh)
  = Raise OverflowError.
Proof.
  exact (hashrate_raises_only_OverflowError (device (Raise APIError)) fresh
           (VList [VStr "HBs"]) (VList [VStr "HBs"])
           (supplied _ _ (VList [VStr "HBs"]) eq_refl)).
Defined.

Lemma hashrate_is_all_or_nothing_witness :
  fst (_get_hashrate (device (Raise APIError))
         (VDict [("HBs", VList [VDict [("Hashrate", VList [VInt 95123456])];
                                VDict [("Index", VInt 1)]])])
         fresh)
  = Ok VNone \/
  fst (_get_hashrate (device (Raise APIError))
         (VDict [("HBs", VList [VDict [("Hashrate", VList [VInt 95123456])];
                                VDict [("Index", VInt 1)]])])
         fresh)
  = Raise OverflowError.
Proof.
  apply (hashrate_is_all_or_nothing (device (Raise APIError)) fresh _
           [("HBs", VList [VDict [("Hashrate", VList [VInt 95123456])];
                           VDict [("Index", VInt 1)]])]
           [("Index", VInt 1)]
           [VDict [("Hashrate", VList [VInt 95123456])]; VDict [("Index", VInt 1)]]
           (supplied _ _ (VDict [("HBs", VList [VDict [("Hashrate", VList [VInt 95123456])];
                                   VDict [("Index", VInt 1)]])]) eq_refl) eq_refl).
  - right. left. reflexivity.
  - reflexivity.
Defined.

Lemma fw_ver_without_space_raises_witness :
  fst (_get_fw_ver (device (Raise APIError))
         (VDict [("Software", VStr "PowerPlay-v1.0")]) fresh)
  = Raise IndexError.
Proof.
  exact (fw_ver_without_space_raises (device (Raise APIError)) fresh
           (VDict [("Software", VStr "PowerPlay-v1.0")])
           [("Software", VStr "PowerPlay-v1.0")] "PowerPlay-v1.0"
           (supplied _ _ (VDict [("Software", VStr "PowerPlay-v1.0")]) eq_refl) eq_refl eq_refl).
Defined.

Lemma fw_ver_has_no_v_witness : has_char "v"%char "1.0-de" = false.
Proof.
  exact (fw_ver_has_no_v (device (Raise APIError)) fresh summary_board1 "1.0-de"
           eq_refl).
Defined.

Lemma hashboards_keeps_the_slots_witness :
  length (allocated (device (Ok (VList [])))) = Z.to_nat 3 /\
  map HashBoard.slot (allocated (device (Ok (VList [])))) = range 3.
Proof.
  exact (hashboards_keeps_the_slots (device (Ok (VList []))) fresh
           summary_board1 hashrate_board1 (allocated (device (Ok (VList []))))
           eq_refl).
Defined.

Lemma hashboards_boards_allocated_or_populated_witness :
  Forall (fun b => b = HashBoard.new (HashBoard.slot b) 100 \/ populated b)
    [HashBoard.new 0 100;
     populate 3 0x1.7c7ae147ae148p+6 (VFloat 61.5) (HashBoard.new 1 100);
     HashBoard.new 2 100].
Proof.
  exact (hashboards_boards_allocated_or_populated (device (Ok hashrate_board1)) fresh
           summary_board1 hashrate_board1 _ eq_refl).
Defined.

(** Index -1 of three boards is the board at slot 2. *)
Lemma hashboards_board_at_index_witness :
  exists l : list HashBoard.t,
    fst (_get_hashboards (device (Ok (VList [VDict chips_last])))
           (VDict summary_last) (VList [VDict chips_last]) fresh) = Ok l /\
    nth_error l (Z.to_nat 2)
    = Some {| HashBoard.slot := 2;
              HashBoard.hashrate := Some (round2 0x1.7c7e6b3fe9faep+6);
              HashBoard.temp := VInt 60;
              HashBoard.chips := Some (Z.of_nat (length [VInt 7; VInt 8]));
              HashBoard.expected_chips := Z.of_nat (length [VInt 7; VInt 8]);
              HashBoard.missing := false |} /\
    (forall j, j <> Z.to_nat 2 ->
               nth_error l j
               = nth_error (allocated (device (Ok (VList [VDict chips_last])))) j).
Proof.
  apply (hashboards_board_at_index (device (Ok (VList [VDict chips_last]))) fresh
           (VDict summary_last) (VList [VDict chips_last]) summary_last board_last
           chips_last (VInt 95123456) (VInt 60) [VInt 100] [VInt 7; VInt 8]
           0x1.7c7e6b3fe9faep+6%float (-1) 2
           (supplied _ _ (VDict summary_last) eq_refl));
    try reflexivity.
  - left. reflexivity.
  - right. cbn. lia.
Defined.

(** Index 3 of three boards is out of range. *)
Lemma hashboards_index_out_of_range_witness :
  fst (_get_hashboards
         (device (Ok (VList [VDict [("Index", VInt 3); ("Data", VList [])]])))
         (VDict [("HBs", VList [VDict [("Index", VInt 3);
                                       ("Hashrate", VList [VInt 1]);
                                       ("Temperature", VInt 60)]])])
         (VList [VDict [("Index", VInt 3); ("Data", VList [])]]) fresh)
  = Raise IndexError.
Proof.
  apply (hashboards_index_out_of_range
           (device (Ok (VList [VDict [("Index", VInt 3); ("Data", VList [])]]))) fresh
           _ _
           [("HBs", VList [VDict [("Index", VInt 3);
                                  ("Hashrate", VList [VInt 1]);
                                  ("Temperature", VInt 60)]])]
           [("Index", VInt 3); ("Hashrate", VList [VInt 1]); ("Temperature", VInt 60)]
           [("Index", VInt 3); ("Data", VList [])]
           (VInt 1) (VInt 60) [] [] (1 # 1) 3 (supplied _ _ (VDict [("HBs", VList [VDict [("Index", VInt 3);
                                          ("Hashrate", VList [VInt 1]);
                                          ("Temperature", VInt 60)]])]) eq_refl));
    try reflexivity.
  - left. reflexivity.
  - left. cbn. lia.
Defined.

Lemma hashboards_without_boards_witness :
  _get_hashboards (device (Raise APIError)) (VDict [("HBs", VNone)]) VNone fresh
  = (Ok (allocated (device (Raise APIError))), fresh) /\
  Forall (fun b => HashBoard.missing b = true) (allocated (device (Raise APIError))).
Proof.
  apply (hashboards_without_boards (device (Raise APIError)) fresh [("HBs", VNone)]).
  right. left. reflexivity.
Defined.

Lemma hashboards_never_fetches_missing_payload_witness :
  _get_hashboards (device (Ok hashrate_board1)) (VDict summary_last) VNone fresh
  = (Raise TypeError, fresh).
Proof.
  exact (hashboards_never_fetches_missing_payload (device (Ok hashrate_board1)) fresh
           summary_last (VDict board_last) [] eq_refl).
Defined.

Lemma get_config_propagates_other_errors_witness :
  get_config (device (Raise TypeError)) fresh
  = (Raise TypeError, requested ePICWebAPI.summary fresh).
Proof.
  exact (get_config_propagates_other_errors (device (Raise TypeError)) fresh TypeError
           eq_refl eq_refl eq_refl).
Defined.

Lemma expected_hashrate_needs_a_dict_witness :
  fst (_get_expected_hashrate (device (Raise APIError)) (VList []) fresh)
  = Raise AttributeError /\
  fst (_get_hashrate (device (Raise APIError)) (VList []) fresh) = Ok VNone.
Proof.
  apply (expected_hashrate_needs_a_dict (device (Raise APIError)) fresh
           (VList []) (VList []) (supplied _ _ (VList []) eq_refl) eq_refl).
  discriminate.
Defined.
